(** * users-api: the password-check request path of
      [measuring-go-applications/main.go]

    A shallow embedding of [getUserFromDB], [signinHandler] and
    [getUserHandler], together with the library routines whose results
    decide their control flow ([strconv.Atoi], [hex.DecodeString],
    [sql.QueryRow.Scan], [bcrypt.CompareHashAndPassword]).

    The library routines are not part of the repository: they follow the Go
    standard library and [golang.org/x/crypto/bcrypt] as published, and the
    Blowfish core of bcrypt, which no claim depends on, is a parameter.

    Conventions.
    - A Go [string] is a [string]; a Go [[]byte] is a [list byte]; the nil
      slice of the zero-valued [User.password] is [None].
    - Go's [int] is the 64-bit one.
    - A Go [(T, error)] result is [error + T]; a run-time panic (index or
      slice bound out of range) is the third constructor of [outcome].
    - The process-wide instruments ([hashLatency], [hashError]), the spans
      and the queries sent to [db] are fields of the state [World] that the
      handlers thread.  The measured duration is a float and is left out:
      an observation is its attribute set. *)

From Stdlib Require Import ZArith List String Ascii Bool Lia.
From Stdlib Require Import Strings.Byte.
Import ListNotations.
Local Open Scope string_scope.
Local Open Scope list_scope.
Local Open Scope Z_scope.

(** ** Bytes and strings *)

Definition byte_val (b : byte) : Z := Z.of_N (Byte.to_N b).

Definition bytes_of_string (s : string) : list byte := list_byte_of_string s.
Definition string_of_bytes (l : list byte) : string := string_of_list_byte l.

Definition chr (n : nat) : byte := byte_of_ascii (ascii_of_nat n).

(** The byte of a value in [0, 256). *)
Definition byte_of_Z (z : Z) : byte :=
  match Byte.of_N (Z.to_N z) with
  | Some b => b
  | None => x00
  end.

(** ['$'], ['2'] as bytes. *)
Definition dollar : byte := chr 36.
Definition majorVersion : byte := chr 50.

Fixpoint bytes_eqb (x y : list byte) : bool :=
  match x, y with
  | [], [] => true
  | a :: x', b :: y' => Byte.eqb a b && bytes_eqb x' y'
  | _, _ => false
  end.

(** ** Error values *)

Inductive NumErr : Type := ErrSyntax | ErrRange.

(** Every error value that can reach the handlers. *)
Inductive error : Type :=
| NumError (Func Num : string) (Err : NumErr)  (* *strconv.NumError *)
| ErrNoRows                                    (* sql.ErrNoRows *)
| StoreFault (msg : string)                    (* any other database/sql or driver error *)
| InvalidByteError (b : byte)                  (* hex.InvalidByteError *)
| ErrLength                                    (* hex.ErrLength *)
| ErrHashTooShort                              (* bcrypt.ErrHashTooShort *)
| ErrMismatchedHashAndPassword                 (* bcrypt.ErrMismatchedHashAndPassword *)
| InvalidHashPrefixError (b : byte)            (* bcrypt.InvalidHashPrefixError *)
| HashVersionTooNewError (b : byte)            (* bcrypt.HashVersionTooNewError *)
| InvalidCostError (cost : Z)                  (* bcrypt.InvalidCostError *)
| CorruptInputError (offset : Z).              (* base64.CorruptInputError *)

(** [errors.Is(err, bcrypt.ErrHashTooShort)]: none of the error types above
    unwraps to the sentinel, so the test is identity with it. *)
Definition is_ErrHashTooShort (err : error) : bool :=
  match err with
  | ErrHashTooShort => true
  | _ => false
  end.

(** A call that returns [(T, error)] and may panic. *)
Inductive outcome (A : Type) : Type :=
| Ok (a : A)
| Err (e : error)
| Panic.
Arguments Ok {A} a.
Arguments Err {A} e.
Arguments Panic {A}.

Definition obind {A B} (m : outcome A) (k : A -> outcome B) : outcome B :=
  match m with
  | Ok a => k a
  | Err e => Err e
  | Panic => Panic
  end.

Declare Scope outcome_scope.
Delimit Scope outcome_scope with outcome.
Notation "'try' x <- m ; k" := (obind m (fun x => k))
  (at level 61, x name, m at next level, right associativity) : outcome_scope.

(** [s[i]]: panics when [i] is out of range. *)
Definition index (s : list byte) (i : nat) : outcome byte :=
  match nth_error s i with
  | Some b => Ok b
  | None => Panic
  end.

(** [s[lo:hi]] and [s[lo:]]: the model panics as soon as a bound exceeds the
    length (Go allows [hi] up to the capacity, so it panics no more often). *)
Definition slice (s : list byte) (lo hi : nat) : outcome (list byte) :=
  if (Nat.leb lo hi && Nat.leb hi (List.length s))%bool
  then Ok (firstn (hi - lo) (skipn lo s))
  else Panic.

Definition slice_from (s : list byte) (lo : nat) : outcome (list byte) :=
  slice s lo (List.length s).

(** [copy(dst[n:], src)] on an array [dst]: overwrites from offset [n] as many
    bytes as fit. *)
Definition copy_at (dst : list byte) (n : nat) (src : list byte) : list byte :=
  let k := Nat.min (List.length dst - n) (List.length src) in
  firstn n dst ++ firstn k src ++ skipn (n + k) dst.

(** [dst[n] = b] for [n] in range. *)
Definition set_at (dst : list byte) (n : nat) (b : byte) : list byte :=
  copy_at dst n [b].

(** ** strconv *)

Module strconv.

Definition digit (c : ascii) : option Z :=
  let n := Z.of_N (N_of_ascii c) in
  if (48 <=? n) && (n <=? 57) then Some (n - 48) else None.

Definition maxUint64 : Z := 2 ^ 64 - 1.

(** The loop of [ParseUint(s, 10, 64)]: a byte that is no digit is a syntax
    error, a value beyond [maxUint64] a range error, whichever comes
    first. *)
Fixpoint ParseUint_loop (s : string) (n : Z) : NumErr + Z :=
  match s with
  | EmptyString => inr n
  | String c rest =>
      match digit c with
      | None => inl ErrSyntax
      | Some d =>
          if n >=? maxUint64 / 10 + 1 then inl ErrRange
          else
            let n1 := n * 10 + d in
            if n1 >? maxUint64 then inl ErrRange
            else ParseUint_loop rest n1
      end
  end.

Definition ParseUint (s : string) : NumErr + Z :=
  match s with
  | EmptyString => inl ErrSyntax
  | _ => ParseUint_loop s 0
  end.

(** [ParseInt(s, 10, 0)]: optional sign, then the magnitude, then the
    64-bit signed range. *)
Definition ParseInt (s : string) : NumErr + Z :=
  match s with
  | EmptyString => inl ErrSyntax
  | String c rest =>
      let neg := Ascii.eqb c "-" in
      let s' := if (Ascii.eqb c "+" || neg)%bool then rest else s in
      match ParseUint s' with
      | inl e => inl e
      | inr un =>
          let cutoff := 2 ^ 63 in
          if (negb neg && (un >=? cutoff))%bool then inl ErrRange
          else if (neg && (un >? cutoff))%bool then inl ErrRange
          else inr (if neg then - un else un)
      end
  end.

(** [Atoi(s)]; its fast path for short strings computes the same result. *)
Definition Atoi (s : string) : error + Z :=
  match ParseInt s with
  | inl e => inl (NumError "Atoi" s e)
  | inr n => inr n
  end.

End strconv.

(** ** encoding/hex *)

Module hex.

(** [reverseHexTable]: the value of a hex digit, [0xff] otherwise. *)
Definition reverseHexTable (b : byte) : Z :=
  let n := byte_val b in
  if (48 <=? n) && (n <=? 57) then n - 48
  else if (97 <=? n) && (n <=? 102) then n - 87
  else if (65 <=? n) && (n <=? 70) then n - 55
  else 255.

(** [Decode]: pairs of digits from the left; an invalid byte is reported
    before an odd length. *)
Fixpoint Decode (src : list byte) : error + list byte :=
  match src with
  | [] => inr []
  | [p] =>
      if reverseHexTable p >? 15 then inl (InvalidByteError p)
      else inl ErrLength
  | p :: q :: rest =>
      let a := reverseHexTable p in
      let b := reverseHexTable q in
      if a >? 15 then inl (InvalidByteError p)
      else if b >? 15 then inl (InvalidByteError q)
      else
        match Decode rest with
        | inl e => inl e
        | inr dst => inr (byte_of_Z (Z.lor (Z.shiftl a 4) b) :: dst)
        end
  end.

Definition DecodeString (s : string) : error + list byte :=
  Decode (bytes_of_string s).

End hex.

(** ** golang.org/x/crypto/bcrypt *)

Module bcrypt.

Definition MinCost : Z := 4.
Definition MaxCost : Z := 31.
Definition encodedSaltSize : nat := 22.
Definition encodedHashSize : nat := 31.
Definition minHashSize : nat := 59.

(** [type hashed struct]; a [minor] of [x00] is the unset one. *)
Record hashed : Type := mkHashed {
  hash : list byte;
  salt : list byte;
  cost : Z;
  major : byte;
  minor : byte
}.

(** [decodeVersion]: the number of bytes read and the two version bytes. *)
Definition decodeVersion (sbytes : list byte) : outcome (nat * byte * byte) :=
  (try b0 <- index sbytes 0;
   if negb (Byte.eqb b0 dollar) then Err (InvalidHashPrefixError b0)
   else
     try b1 <- index sbytes 1;
     if byte_val b1 >? byte_val majorVersion then Err (HashVersionTooNewError b1)
     else
       try b2 <- index sbytes 2;
       if negb (Byte.eqb b2 dollar) then Ok (4%nat, b1, b2)
       else Ok (3%nat, b1, x00))%outcome.

Definition checkCost (c : Z) : outcome unit :=
  if (c <? MinCost) || (c >? MaxCost) then Err (InvalidCostError c)
  else Ok tt.

(** [decodeCost]: two bytes read as a decimal integer, then the range. *)
Definition decodeCost (sbytes : list byte) : outcome (nat * Z) :=
  (try two <- slice sbytes 0 2;
   match strconv.Atoi (string_of_bytes two) with
   | inl err => Err err
   | inr c =>
       try _ <- checkCost c;
       Ok (3%nat, c)
   end)%outcome.

Definition newFromHash (hashedSecret : list byte) : outcome hashed :=
  if Nat.ltb (List.length hashedSecret) minHashSize then Err ErrHashTooShort
  else
    (try v <- decodeVersion hashedSecret;
     let '(n, maj, min) := v in
     try hashedSecret1 <- slice_from hashedSecret n;
     try c <- decodeCost hashedSecret1;
     let '(n', cst) := c in
     try hashedSecret2 <- slice_from hashedSecret1 n';
     try slt <- slice hashedSecret2 0 encodedSaltSize;
     try hashedSecret3 <- slice_from hashedSecret2 encodedSaltSize;
     Ok (mkHashed hashedSecret3 slt cst maj min))%outcome.

(** [fmt.Sprintf("%02d", c)] for [0 <= c < 100], the range [checkCost]
    lets through. *)
Definition Sprintf_02d (c : Z) : list byte :=
  [byte_of_Z (48 + c / 10); byte_of_Z (48 + c mod 10)].

(** The method [Hash] of [hashed]: the encoded form rebuilt in a 60-byte array. *)
Definition Hash (p : hashed) : list byte :=
  let arr := repeat x00 60 in
  let arr := set_at arr 0 dollar in
  let arr := set_at arr 1 (major p) in
  let '(arr, n) :=
    if negb (Byte.eqb (minor p) x00) then (set_at arr 2 (minor p), 3%nat)
    else (arr, 2%nat) in
  let arr := set_at arr n dollar in
  let n := S n in
  let arr := copy_at arr n (Sprintf_02d (cost p)) in
  let n := (n + 2)%nat in
  let arr := set_at arr n dollar in
  let n := S n in
  let arr := copy_at arr n (salt p) in
  let n := (n + encodedSaltSize)%nat in
  let arr := copy_at arr n (hash p) in
  let n := (n + encodedHashSize)%nat in
  firstn n arr.

(** What the Blowfish core returns. *)
Inductive encoded : Type :=
| Hashed (h : list byte)
| CorruptSalt (offset : Z).

Section Compare.

(** The expensive Blowfish key schedule and encryption,
    [bcrypt(password, cost, salt)]: it yields the encoded hash, or the
    [base64.CorruptInputError] of decoding the salt, its only error. *)
Variable bcrypt : list byte -> Z -> list byte -> encoded.

(** [CompareHashAndPassword]: [Ok tt] is the nil error. *)
Definition CompareHashAndPassword (hashedPassword password : list byte)
  : outcome unit :=
  (try p <- newFromHash hashedPassword;
   match bcrypt password (cost p) (salt p) with
   | CorruptSalt offset => Err (CorruptInputError offset)
   | Hashed otherHash =>
       let otherP := mkHashed otherHash (salt p) (cost p) (major p) (minor p) in
       if bytes_eqb (Hash p) (Hash otherP) then Ok tt
       else Err ErrMismatchedHashAndPassword
   end)%outcome.

End Compare.

End bcrypt.

(** ** database/sql: the [users] table behind [db] *)

Module sql.

(** A row of [users]; the [password] column scans into a [sql.NullString],
    [None] being SQL NULL ([Valid == false]). *)
Record Row : Type := mkRow {
  col_id : Z;
  col_name : string;
  col_email : string;
  col_password : option string
}.

(** The store: its rows in table order, and for each key the failure, if
    any, that the query for it meets (connection error, timeout, a column
    that does not scan, ...). *)
Record DB : Type := mkDB {
  fault : Z -> option string;
  users : list Row
}.

(** [db.QueryRowContext(ctx, "SELECT ... WHERE id = $1", key).Scan(...)]:
    the first matching row, [ErrNoRows] when there is none. *)
Definition QueryRow_Scan (db : DB) (key : Z) : error + Row :=
  match fault db key with
  | Some msg => inl (StoreFault msg)
  | None =>
      match find (fun r => col_id r =? key) (users db) with
      | Some r => inr r
      | None => inl ErrNoRows
      end
  end.

End sql.

(** ** encoding/json and net/http *)

(** The two structs that are encoded are flat: a JSON object is its list of
    members in order. *)
Inductive JValue : Type :=
| JNum (n : Z)
| JStr (s : string).

Definition JObject : Type := list (string * JValue).

Inductive Body : Type :=
| Text (s : string)    (* bytes written as they are *)
| JSON (j : JObject).    (* what [json.NewEncoder(w).Encode] writes *)

Record Response : Type := mkResponse {
  StatusCode : Z;
  Header : list (string * string);
  body : Body
}.

(** What the server does with a request: it answers, or the handler
    panicked and the connection is dropped. *)
Inductive Served : Type :=
| Responded (resp : Response)
| Aborted.

Definition StatusBadRequest : Z := 400.
Definition StatusUnauthorized : Z := 401.
Definition StatusNotFound : Z := 404.
Definition StatusInternalServerError : Z := 500.
Definition StatusOK : Z := 200.

Definition newline : string := String (ascii_of_nat 10) EmptyString.

(** [http.Error(w, msg, code)]. *)
Definition http_Error (msg : string) (code : Z) : Response :=
  {| StatusCode := code;
     Header := [("Content-Type", "text/plain; charset=utf-8");
                ("X-Content-Type-Options", "nosniff")];
     body := Text (msg ++ newline) |}.

(** The form and the URL query of a request, each as its list of
    key-value pairs in order. *)
Record Request : Type := mkRequest {
  Form : list (string * string);
  URLQuery : list (string * string)
}.

(** The first value of [key], the empty string when there is none. *)
Fixpoint first_value (kvs : list (string * string)) (key : string) : string :=
  match kvs with
  | [] => ""
  | (k, v) :: rest => if String.eqb k key then v else first_value rest key
  end.

Definition FormValue (r : Request) (key : string) : string :=
  first_value (Form r) key.

Definition URL_Query_Get (r : Request) (key : string) : string :=
  first_value (URLQuery r) key.

(** ** Telemetry and the state the handlers thread *)

Inductive AttrValue : Type :=
| ABool (b : bool)
| AString (s : string).

Definition KeyValue : Type := (string * AttrValue)%type.

Inductive SpanEvent : Type :=
| SpanStart (name : string)
| SpanEnd (name : string)
| RecordError (err : error).   (* on the span of the request *)

Record World : Type := mkWorld {
  hashLatency : list (list KeyValue);  (* observations, oldest first *)
  hashError : Z;                       (* value of the counter *)
  spans : list SpanEvent;
  queries : list Z                     (* keys of the queries sent to [db] *)
}.

Definition M (A : Type) : Type := World -> A * World.

Definition ret {A} (a : A) : M A := fun w => (a, w).

Definition bind {A B} (m : M A) (k : A -> M B) : M B :=
  fun w => let (a, w') := m w in k a w'.

Declare Scope M_scope.
Delimit Scope M_scope with M.
Notation "x <- m ;; k" := (bind m (fun x => k))
  (at level 61, m at next level, right associativity) : M_scope.
Notation "m ;; k" := (bind m (fun _ => k))
  (at level 61, right associativity) : M_scope.

(** [hashLatency.Record(ctx, seconds, metric.WithAttributes(attrs...))]. *)
Definition hashLatency_Record (attrs : list KeyValue) : M unit :=
  fun w => (tt, mkWorld (hashLatency w ++ [attrs]) (hashError w) (spans w) (queries w)).

(** [hashError.Add(ctx, n)]. *)
Definition hashError_Add (n : Z) : M unit :=
  fun w => (tt, mkWorld (hashLatency w) (hashError w + n) (spans w) (queries w)).

Definition span_event (e : SpanEvent) : M unit :=
  fun w => (tt, mkWorld (hashLatency w) (hashError w) (spans w ++ [e]) (queries w)).

Definition db_QueryRow_Scan (db : sql.DB) (key : Z) : M (error + sql.Row) :=
  fun w => (sql.QueryRow_Scan db key,
            mkWorld (hashLatency w) (hashError w) (spans w) (queries w ++ [key])).

(** The view registered by [setupOpenTelemetry]: on the instrument it names,
    the attribute [user_id] is dropped; other instruments export what was
    recorded. *)
Definition view_instrument : string := "http.server.request.duration".

Definition AttributeFilter (k : KeyValue) : bool :=
  negb (String.eqb (fst k) "user_id").

Definition exported_attrs (instrument : string) (attrs : list KeyValue)
  : list KeyValue :=
  if String.eqb instrument view_instrument then filter AttributeFilter attrs
  else attrs.

Definition hashLatency_name : string := "user.auth.password_check.latency".

(** ** The handlers *)

(** [type User struct]: [password] has no JSON tag and is unexported. *)
Record User : Type := mkUser {
  ID : Z;
  Name : string;
  Email : string;
  password : option (list byte)
}.

(** The bytes of a slice that may be nil. *)
Definition bytes_of_slice (s : option (list byte)) : list byte :=
  match s with
  | Some l => l
  | None => []
  end.

(** [json.NewEncoder(w).Encode(user)]: the exported fields under their
    tags. *)
Definition Encode_User (u : User) : JObject :=
  [("id", JNum (ID u)); ("name", JStr (Name u)); ("email", JStr (Email u))].

(** [json.NewEncoder(w).Encode(struct{ Status string }{"OK"})]. *)
Definition Encode_Status_OK : JObject := [("Status", JStr "OK")].

(** A nil [error] is [None]. *)
Definition error_of {A} (o : outcome A) : option error :=
  match o with
  | Err e => Some e
  | _ => None
  end.

Definition is_nil (err : option error) : bool :=
  match err with
  | None => true
  | Some _ => false
  end.

Definition errors_Is_ErrHashTooShort (err : option error) : bool :=
  match err with
  | Some e => is_ErrHashTooShort e
  | None => false
  end.

Section Handlers.

Variable bcrypt_core : list byte -> Z -> list byte -> bcrypt.encoded.
Variable db : sql.DB.

Local Open Scope M_scope.

Definition getUserFromDB (userID : string) : M (error + User) :=
  match strconv.Atoi userID with
  | inl err => ret (inl err)
  | inr userIDInt =>
      scanned <- db_QueryRow_Scan db userIDInt ;;
      match scanned with
      | inl err =>
          span_event (RecordError err) ;;
          ret (inl err)
      | inr row =>
          let user := mkUser (sql.col_id row) (sql.col_name row) (sql.col_email row) None in
          match sql.col_password row with
          | Some str =>
              match hex.DecodeString str with
              | inl err => ret (inl err)
              | inr pwHash =>
                  ret (inr (mkUser (ID user) (Name user) (Email user) (Some pwHash)))
              end
          | None => ret (inr user)
          end
      end
  end.

(** Lines 185-198 of [signinHandler], the spec's [verify]: the timed
    comparison, the two instruments and the answer. *)
Definition password_check (user : User) (submitted : string) : M Served :=
  match bcrypt.CompareHashAndPassword bcrypt_core
          (bytes_of_slice (password user)) (bytes_of_string submitted) with
  | Panic => ret Aborted
  | res =>
      let err := error_of res in
      hashLatency_Record [("correct", ABool (is_nil err))] ;;
      (if errors_Is_ErrHashTooShort err then hashError_Add 1 else ret tt) ;;
      if negb (is_nil err)
      then ret (Responded (http_Error "Not authenticated" StatusUnauthorized))
      else ret (Responded (mkResponse StatusOK [] (JSON Encode_Status_OK)))
  end.

Definition signinHandler (r : Request) : M Served :=
  let userID := FormValue r "id" in
  if String.eqb userID ""
  then ret (Responded (http_Error "Missing user ID" StatusBadRequest))
  else
    fetched <- getUserFromDB userID ;;
    match fetched with
    | inl _ =>
        ret (Responded (http_Error "Failed to get user" StatusInternalServerError))
    | inr user =>
        span_event (SpanStart "password_check") ;;
        served <- password_check user (FormValue r "password") ;;
        span_event (SpanEnd "password_check") ;;
        ret served
    end.

Definition getUserHandler (r : Request) : M Served :=
  let userID := URL_Query_Get r "id" in
  if String.eqb userID ""
  then ret (Responded (http_Error "Missing user ID" StatusBadRequest))
  else
    fetched <- getUserFromDB userID ;;
    match fetched with
    | inl _ =>
        ret (Responded (http_Error "Failed to get user" StatusInternalServerError))
    | inr user =>
        ret (Responded (mkResponse StatusOK [("Content-Type", "application/json")]
                          (JSON (Encode_User user))))
    end.

End Handlers.

(** An idle process: nothing observed, nothing counted. *)
Definition w0 : World := mkWorld [] 0 [] [].

(** ** The spec's vocabulary, read on the code *)

(** [matched]: the comparison returned the nil error. *)
Definition matched {A} (res : outcome A) : bool :=
  match res with
  | Ok _ => true
  | _ => false
  end.

(** The spec's [errorClass] (its section 4.2, step 3), as the primitive reports
    it: [mismatch] is a well-formed hash that is not the hash of the
    plaintext, [malformed-hash] any structural rejection of the stored
    hash. *)
Inductive ErrorClass : Type :=
| class_none
| class_malformed_hash
| class_mismatch.

Definition errorClass (res : outcome unit) : ErrorClass :=
  match res with
  | Ok _ => class_none
  | Err ErrMismatchedHashAndPassword => class_mismatch
  | _ => class_malformed_hash
  end.

(** A hash the Authentication Check can evaluate: the primitive parses it. *)
Definition well_formed (h : list byte) : bool :=
  match bcrypt.newFromHash h with
  | Ok _ => true
  | _ => false
  end.

(** The comparison [password_check] makes for a record and a plaintext. *)
Definition compare (core : list byte -> Z -> list byte -> bcrypt.encoded)
  (user : User) (submitted : string) : outcome unit :=
  bcrypt.CompareHashAndPassword core
    (bytes_of_slice (password user)) (bytes_of_string submitted).

(** How often a span of the given name was started. *)
Fixpoint started (name : string) (l : list SpanEvent) : nat :=
  match l with
  | [] => 0%nat
  | SpanStart n :: rest =>
      if String.eqb n name then S (started name rest) else started name rest
  | _ :: rest => started name rest
  end.

(** The status of an answer; a dropped connection has none. *)
Definition status_of (s : Served) : option Z :=
  match s with
  | Responded resp => Some (StatusCode resp)
  | Aborted => None
  end.

(** A row without its credential, and stores that agree on everything but
    the credentials. *)
Definition public_part (r : sql.Row) : Z * string * string :=
  (sql.col_id r, sql.col_name r, sql.col_email r).

Definition same_but_credentials (db1 db2 : sql.DB) : Prop :=
  (forall key, sql.fault db1 key = sql.fault db2 key) /\
  map public_part (sql.users db1) = map public_part (sql.users db2).

(** What a call may do when the stored hash is long enough: succeed with a
    value satisfying [P], or fail with an error other than
    [ErrHashTooShort]; it does not panic. *)
Definition settles {A} (P : A -> Prop) (o : outcome A) : Prop :=
  match o with
  | Ok a => P a
  | Err e => is_ErrHashTooShort e = false
  | Panic => False
  end.

(** The answer [password_check] gives for a result of the comparison. *)
Definition answer (res : outcome unit) : Response :=
  if matched res
  then mkResponse StatusOK [] (JSON Encode_Status_OK)
  else http_Error "Not authenticated" StatusUnauthorized.

(** Is the stored hash one of those [bcrypt] calls too short? *)
Definition too_short (user : User) : bool :=
  Nat.ltb (List.length (bytes_of_slice (password user))) bcrypt.minHashSize.

(** The observations a run added to the histogram. *)
Definition new_observations (w w' : World) : list (list KeyValue) :=
  skipn (List.length (hashLatency w)) (hashLatency w').

(** *** The readings of the spec that the code does not follow

    Each is a statement of the spec about one run; the theorems below refute
    it on a fixture and prove what holds in its place. *)

(** Section 4.2, step 4: the error counter moves, by one, exactly on the
    [malformed-hash] class. *)
Definition spec_counts_malformed
  (core : list byte -> Z -> list byte -> bcrypt.encoded)
  (user : User) (submitted : string) (w : World) : Prop :=
  hashError (snd (password_check core user submitted w)) = hashError w + 1
  <-> errorClass (compare core user submitted) = class_malformed_hash.

(** Section 7: an identifier absent from a working store is answered with
    404. *)
Definition spec_not_found_is_404
  (core : list byte -> Z -> list byte -> bcrypt.encoded)
  (db : sql.DB) (r : Request) (w : World) : Prop :=
  forall key,
    strconv.Atoi (FormValue r "id") = inr key ->
    sql.QueryRow_Scan db key = inl ErrNoRows ->
    status_of (fst (signinHandler core db r w)) = Some StatusNotFound.

(** Sections 4.1 and 7: an identifier that does not parse is answered with
    400, and no query is sent. *)
Definition spec_unparseable_is_400
  (core : list byte -> Z -> list byte -> bcrypt.encoded)
  (db : sql.DB) (r : Request) (w : World) : Prop :=
  forall err,
    strconv.Atoi (FormValue r "id") = inl err ->
    status_of (fst (signinHandler core db r w)) = Some StatusBadRequest /\
    queries (snd (signinHandler core db r w)) = queries w.

(** Section 3, the invariant: a record the lookup returns has no hash or a
    well-formed one. *)
Definition spec_fetched_hash_well_formed
  (db : sql.DB) (userID : string) (w : World) : Prop :=
  forall user,
    fst (getUserFromDB db userID w) = inr user ->
    password user = None \/
    exists h, password user = Some h /\ well_formed h = true.

(** ** Fixtures *)

(** A stand-in for the Blowfish core, to run the handlers on examples: the
    encoded hash of a password is the password itself, padded with ['.'] or
    cut to 31 bytes. *)
Definition stub_bcrypt (pw : list byte) (c : Z) (slt : list byte)
  : bcrypt.encoded :=
  bcrypt.Hashed (firstn 31 (pw ++ repeat (chr 46) 31)).

(** What [stub_bcrypt] stores for a password: version 2a, cost 10. *)
Definition stored_hash (pw : string) : list byte :=
  bytes_of_string "$2a$10$abcdefghijklmnopqrstuv"
    ++ firstn 31 (bytes_of_string pw ++ repeat (chr 46) 31).

Definition hexdigit (n : N) : ascii :=
  ascii_of_N (if (n <? 10)%N then 48 + n else 87 + n)%N.

(** [hex.EncodeToString]. *)
Fixpoint EncodeToString (l : list byte) : string :=
  match l with
  | [] => ""
  | b :: rest =>
      String (hexdigit (Byte.to_N b / 16))
        (String (hexdigit (Byte.to_N b mod 16)) (EncodeToString rest))
  end.

(** Sixty bytes, none of them the ['$'] a hash begins with. *)
Definition bad_prefix_hash : list byte := repeat (chr 120) 60.

(** 1: a password; 2: none set; 3: a credential that is no hex string;
    4: hex of two bytes; 5: hex of sixty bytes with a wrong prefix. *)
Definition db1 : sql.DB :=
  sql.mkDB (fun _ => None)
    [ sql.mkRow 1 "ann" "ann@example.org" (Some (EncodeToString (stored_hash "secret")));
      sql.mkRow 2 "bob" "bob@example.org" None;
      sql.mkRow 3 "cyd" "cyd@example.org" (Some "zz");
      sql.mkRow 4 "dee" "dee@example.org" (Some "abcd");
      sql.mkRow 5 "eli" "eli@example.org" (Some (EncodeToString bad_prefix_hash)) ].

(** [db1] with other credentials. *)
Definition db2 : sql.DB :=
  sql.mkDB (fun _ => None)
    [ sql.mkRow 1 "ann" "ann@example.org" (Some (EncodeToString (stored_hash "other")));
      sql.mkRow 2 "bob" "bob@example.org" (Some "abcd");
      sql.mkRow 3 "cyd" "cyd@example.org" None;
      sql.mkRow 4 "dee" "dee@example.org" None;
      sql.mkRow 5 "eli" "eli@example.org" None ].

Definition db_down : sql.DB := sql.mkDB (fun _ => Some "connection refused") [].

Definition post (id pw : string) : Request :=
  mkRequest [("id", id); ("password", pw)] [].

Definition get (id : string) : Request :=
  mkRequest [] [("id", id)].

(** ** Further vocabulary for the request path *)

(** How often a span of the given name was ended. *)
Fixpoint ended (name : string) (l : list SpanEvent) : nat :=
  match l with
  | [] => 0%nat
  | SpanEnd n :: rest =>
      if String.eqb n name then S (ended name rest) else ended name rest
  | _ :: rest => ended name rest
  end.

(** The span events a run added. *)
Definition new_spans (w w' : World) : list SpanEvent :=
  skipn (List.length (spans w)) (spans w').

(** The queries a run sent. *)
Definition new_queries (w w' : World) : list Z :=
  skipn (List.length (queries w)) (queries w').

(** Spans are opened and closed like brackets: [open] is the stack of the
    spans started and not yet ended, innermost first. *)
Fixpoint well_bracketed (l : list SpanEvent) (open : list string) : bool :=
  match l with
  | [] => match open with [] => true | _ => false end
  | SpanStart n :: rest => well_bracketed rest (n :: open)
  | SpanEnd n :: rest =>
      match open with
      | top :: open' => String.eqb n top && well_bracketed rest open'
      | [] => false
      end
  | RecordError _ :: rest => well_bracketed rest open
  end.

(** The errors recorded on the request span. *)
Fixpoint recorded (l : list SpanEvent) : list error :=
  match l with
  | [] => []
  | RecordError e :: rest => e :: recorded rest
  | _ :: rest => recorded rest
  end.

(** Does the lookup of a sign-in request return a record?  (The answer of
    the lookup does not depend on the state, see [getUserFromDB_value].) *)
Definition lookup_succeeds (db : sql.DB) (r : Request) : bool :=
  negb (String.eqb (FormValue r "id") "") &&
  match fst (getUserFromDB db (FormValue r "id") w0) with
  | inr _ => true
  | inl _ => false
  end.

(** Does it return a record whose hash [bcrypt] calls too short? *)
Definition lookup_too_short (db : sql.DB) (r : Request) : bool :=
  negb (String.eqb (FormValue r "id") "") &&
  match fst (getUserFromDB db (FormValue r "id") w0) with
  | inr user => too_short user
  | inl _ => false
  end.

(** The server handling sign-in requests one after the other. *)
Fixpoint serve_signin
  (core : list byte -> Z -> list byte -> bcrypt.encoded)
  (db : sql.DB) (reqs : list Request) (w : World) : World :=
  match reqs with
  | [] => w
  | r :: rest => serve_signin core db rest (snd (signinHandler core db r w))
  end.

Definition count_true {A} (f : A -> bool) (l : list A) : nat :=
  List.length (filter f l).

(** ** Start-up, shutdown and the other programs of the repository

    The programs outside the request path call into the SDK, the exporters,
    the database driver and the network.  What such a call returns is a field
    of an environment; what the program does is the list of [Event]s it
    leaves, oldest first.  [log.Fatal] and its variants log and end the
    process with status 1 at once: a function deferred by then is not run. *)

(** An error value built by [errors.Join]. *)
#[warnings="-register-all"]
Inductive joined : Type :=
| Plain (e : error)
| Join (errs : list joined).

(** [errors.Join(errs...)]: the nil arguments are dropped; nil when nothing
    is left. *)
Fixpoint non_nil (errs : list (option joined)) : list joined :=
  match errs with
  | [] => []
  | Some e :: rest => e :: non_nil rest
  | None :: rest => non_nil rest
  end.

Definition errors_Join (errs : list (option joined)) : option joined :=
  match non_nil errs with
  | [] => None
  | l => Some (Join l)
  end.

(** The errors [errors.Is] visits in a joined error, in its depth-first
    order. *)
Fixpoint leaves (e : joined) : list error :=
  match e with
  | Plain x => [x]
  | Join errs => flat_map leaves errs
  end.

Definition leaves_of (e : option joined) : list error :=
  match e with
  | Some x => leaves x
  | None => []
  end.

Definition list_of_option {A} (o : option A) : list A :=
  match o with
  | Some a => [a]
  | None => []
  end.

Inductive Provider : Type := TracerProvider | MeterProvider.

Inductive Event : Type :=
| EGlobal (what : string)                       (* otel.Set..., runtime.Start, sql.Open, ... *)
| EShutdown (p : Provider)                      (* tp.Shutdown, mp.Shutdown *)
| EWarn (msg : string) (err : error)            (* slog.Warn *)
| EFatal (msg : string) (err : option joined)   (* the line log.Fatal writes *)
| EPrintln (msg : string)
| EHandle (pattern operation : string)          (* http.Handle, http.HandleFunc *)
| EListen (addr : string)                       (* http.ListenAndServe *)
| EStart (name : string) (parent : option string)
| EEnd (name : string)
| ESetAttributes (span : string) (attrs : list (string * string))
| EAddEvent (span name : string)
| ERecordError (span : string) (err : error)
| EQuery (arg : string)                         (* a query with a string argument *)
| ERequest (method url : string) (form : list (string * string))
| EBodyClose
| EStdout (s : string).

Inductive Halt (A : Type) : Type :=
| Done (a : A)
| Exit (code : Z).
Arguments Done {A} a.
Arguments Exit {A} code.

Definition Proc (A : Type) : Type := list Event -> Halt A * list Event.

Definition pret {A} (a : A) : Proc A := fun l => (Done a, l).

Definition pbind {A B} (m : Proc A) (k : A -> Proc B) : Proc B :=
  fun l =>
    match m l with
    | (Done a, l') => k a l'
    | (Exit c, l') => (Exit c, l')
    end.

Definition emit (e : Event) : Proc unit := fun l => (Done tt, l ++ [e]).

(** [log.Fatal], [log.Fatalf]: the line, then [os.Exit(1)]. *)
Definition log_Fatal {A} (msg : string) (err : option joined) : Proc A :=
  fun l => (Exit 1, l ++ [EFatal msg err]).

(** [defer d] before [body]: [d] runs when [body] returns, and not when the
    process exits inside it. *)
Definition defer {A} (d : Proc unit) (body : Proc A) : Proc A :=
  fun l =>
    match body l with
    | (Done a, l') =>
        match d l' with
        | (Done _, l'') => (Done a, l'')
        | (Exit c, l'') => (Exit c, l'')
        end
    | (Exit c, l') => (Exit c, l')
    end.

Declare Scope P_scope.
Delimit Scope P_scope with P.
Notation "x <- m ;; k" := (pbind m (fun x => k))
  (at level 61, m at next level, right associativity) : P_scope.
Notation "m ;; k" := (pbind m (fun _ => k))
  (at level 61, right associativity) : P_scope.

(** What a list of events shows. *)
Fixpoint shutdowns (l : list Event) : list Provider :=
  match l with
  | [] => []
  | EShutdown p :: rest => p :: shutdowns rest
  | _ :: rest => shutdowns rest
  end.

Fixpoint warnings (l : list Event) : list error :=
  match l with
  | [] => []
  | EWarn _ err :: rest => err :: warnings rest
  | _ :: rest => warnings rest
  end.


Fixpoint errors_on_spans (l : list Event) : list (string * error) :=
  match l with
  | [] => []
  | ERecordError span err :: rest => (span, err) :: errors_on_spans rest
  | _ :: rest => errors_on_spans rest
  end.


Fixpoint printed (l : list Event) : list string :=
  match l with
  | [] => []
  | EStdout s :: rest => s :: printed rest
  | _ :: rest => printed rest
  end.

Fixpoint attributes_set (l : list Event) : list (string * list (string * string)) :=
  match l with
  | [] => []
  | ESetAttributes span attrs :: rest => (span, attrs) :: attributes_set rest
  | _ :: rest => attributes_set rest
  end.

(** Spans nest: a span is started as the child of the innermost open span
    (of [ctx] when none is open), ended innermost first, and written to only
    while it is the innermost open one; [open] is the stack of open spans. *)
Fixpoint nested (ctx : option string) (l : list Event) (open : list string) : bool :=
  match l with
  | [] => match open with [] => true | _ => false end
  | EStart name parent :: rest =>
      match open, parent with
      | top :: _, Some p => String.eqb p top && nested ctx rest (name :: open)
      | [], Some p =>
          match ctx with
          | Some c => String.eqb p c && nested ctx rest (name :: open)
          | None => false
          end
      | [], None =>
          match ctx with
          | None => nested ctx rest (name :: open)
          | Some _ => false
          end
      | _ :: _, None => false
      end
  | EEnd name :: rest =>
      match open with
      | top :: open' => String.eqb name top && nested ctx rest open'
      | [] => false
      end
  | ESetAttributes span _ :: rest
  | EAddEvent span _ :: rest
  | ERecordError span _ :: rest =>
      match open with
      | top :: _ => String.eqb span top && nested ctx rest open
      | [] => false
      end
  | _ :: rest => nested ctx rest open
  end.

(** *** measuring-go-applications: [setupOpenTelemetry], [initDB], [main] *)

(** What the calls of the server's start-up and shutdown return; [None] is
    the nil error.  [http.ListenAndServe] always returns an error. *)
Record Env : Type := mkEnv {
  otlptracegrpc_New : option error;
  otlpmetricgrpc_New : option error;
  runtime_Start : option error;
  otelsql_Register : option error;
  sql_Open : option error;
  db_Ping : option error;
  http_ListenAndServe : error;
  tp_Shutdown : option error;
  mp_Shutdown : option error
}.

Definition plain (err : option error) : option joined :=
  match err with
  | Some e => Some (Plain e)
  | None => None
  end.

(** The function [setupOpenTelemetry] returns: both providers are shut down,
    the failures are logged and joined. *)
Definition cleanup (env : Env) : Proc (option joined) :=
  (emit (EShutdown TracerProvider) ;;
   err <- match tp_Shutdown env with
          | Some tpErr =>
              emit (EWarn "Failed to shut down tracer provider" tpErr) ;;
              pret (errors_Join [None; Some (Plain tpErr)])
          | None => pret None
          end ;;
   emit (EShutdown MeterProvider) ;;
   match mp_Shutdown env with
   | Some mpErr =>
       emit (EWarn "Failed to shut down metric provider" mpErr) ;;
       pret (errors_Join [err; Some (Plain mpErr)])
   | None => pret err
   end)%P.

(** [setupOpenTelemetry]; the error of [resource.Merge] is dropped by the
    source. *)
Definition setupOpenTelemetry (env : Env) : Proc (Proc (option joined)) :=
  match otlptracegrpc_New env with
  | Some err => log_Fatal "Failed to create exporter: " (Some (Plain err))
  | None =>
      (emit (EGlobal "SetTracerProvider") ;;
       emit (EGlobal "SetTextMapPropagator") ;;
       match otlpmetricgrpc_New env with
       | Some err => log_Fatal "" (Some (Plain err))
       | None =>
           emit (EGlobal "SetMeterProvider") ;;
           match runtime_Start env with
           | Some err => log_Fatal "" (Some (Plain err))
           | None => emit (EGlobal "runtime.Start") ;; pret (cleanup env)
           end
       end)%P
  end.

Definition initDB (env : Env) : Proc unit :=
  match otelsql_Register env with
  | Some err => log_Fatal "Failed to register otelsql driver: " (Some (Plain err))
  | None =>
      match sql_Open env with
      | Some err => log_Fatal "Failed to connect to database: " (Some (Plain err))
      | None =>
          (emit (EGlobal "sql.Open") ;;
           match db_Ping env with
           | Some err => log_Fatal "Failed to ping database: " (Some (Plain err))
           | None => emit (EGlobal "db.Ping")
           end)%P
      end
  end.

Definition main (env : Env) : Proc unit :=
  (cleanup <- setupOpenTelemetry env ;;
   defer (err <- cleanup ;; log_Fatal "" err)
     (emit (EGlobal "Float64Histogram user.auth.password_check.latency") ;;
      emit (EGlobal "Int64Counter user.auth.password_check.errors") ;;
      initDB env ;;
      emit (EHandle "/user" "http.get_user") ;;
      emit (EHandle "/user/auth" "http.auth_user") ;;
      emit (EPrintln "Server starting on :8080") ;;
      emit (EListen ":8080") ;;
      log_Fatal "" (Some (Plain (http_ListenAndServe env)))))%P.


(** *** tracing-go-applications/rest-api *)

Module rest_api.

Record User : Type := mkUser {
  ID : Z;
  Name : string;
  Email : string
}.

Definition Encode_User (u : User) : JObject :=
  [("id", JNum (ID u)); ("name", JStr (Name u)); ("email", JStr (Email u))].

(** [trace.SpanFromContext(ctx)] is the span [ctx] carries; without one it
    is a span that records nothing. *)
Definition span_RecordError (ctx : option string) (err : error) : Proc unit :=
  match ctx with
  | Some span => emit (ERecordError span err)
  | None => pret tt
  end.

Definition span_SetAttributes (ctx : option string) (attrs : list (string * string))
  : Proc unit :=
  match ctx with
  | Some span => emit (ESetAttributes span attrs)
  | None => pret tt
  end.

Section Handlers.

(** [db.QueryRowContext(ctx, "SELECT id, name, email ...", userID).Scan(...)]:
    here the identifier goes to the store as the string it is. *)
Variable scan : string -> error + User.

Definition getUserFromDB (ctx : option string) (userID : string)
  : Proc (error + User) :=
  (emit (EQuery userID) ;;
   match scan userID with
   | inl err => span_RecordError ctx err ;; pret (inl err)
   | inr user => pret (inr user)
   end)%P.

Definition getUserHandler (ctx : option string) (r : Request) : Proc Response :=
  let userID := URL_Query_Get r "id" in
  if String.eqb userID ""
  then pret (http_Error "Missing user ID" StatusBadRequest)
  else
    (span_SetAttributes ctx [("user.id", userID)] ;;
     fetched <- getUserFromDB ctx userID ;;
     match fetched with
     | inl err =>
         span_RecordError ctx err ;;
         pret (http_Error "Failed to get user" StatusInternalServerError)
     | inr user =>
         pret (mkResponse StatusOK [("Content-Type", "application/json")]
                 (JSON (Encode_User user)))
     end)%P.

End Handlers.

Record Env : Type := mkEnv {
  resource_New : option error;
  otlptracegrpc_New : option error;
  otelsql_Register : option error;
  sql_Open : option error;
  db_Ping : option error;
  http_ListenAndServe : error;
  tp_Shutdown : option error
}.

(** The function [initTracer] returns. *)
Definition cleanup (env : Env) : Proc unit :=
  (emit (EShutdown TracerProvider) ;;
   match tp_Shutdown env with
   | Some err => log_Fatal "Failed to shut down tracer provider: " (Some (Plain err))
   | None => pret tt
   end)%P.

Definition initTracer (env : Env) : Proc (Proc unit) :=
  match resource_New env with
  | Some err => log_Fatal "Failed to create resource: " (Some (Plain err))
  | None =>
      match otlptracegrpc_New env with
      | Some err => log_Fatal "Failed to create exporter: " (Some (Plain err))
      | None =>
          (emit (EGlobal "SetTracerProvider") ;;
           emit (EGlobal "SetTextMapPropagator") ;;
           pret (cleanup env))%P
      end
  end.

Definition initDB (env : Env) : Proc unit :=
  match otelsql_Register env with
  | Some err => log_Fatal "Failed to register otelsql driver: " (Some (Plain err))
  | None =>
      match sql_Open env with
      | Some err => log_Fatal "Failed to connect to database: " (Some (Plain err))
      | None =>
          (emit (EGlobal "sql.Open") ;;
           match db_Ping env with
           | Some err => log_Fatal "Failed to ping database: " (Some (Plain err))
           | None => emit (EGlobal "db.Ping")
           end)%P
      end
  end.

Definition main (env : Env) : Proc unit :=
  (cleanup <- initTracer env ;;
   defer cleanup
     (initDB env ;;
      emit (EHandle "/user" "http.get_user") ;;
      emit (EPrintln "Server starting on :8080") ;;
      emit (EListen ":8080") ;;
      log_Fatal "" (Some (Plain (http_ListenAndServe env)))))%P.

End rest_api.

(** *** tracing-go-applications/simple-http *)

Module simple_http.

(** What [handleRequest] reads of a request. *)
Record Request : Type := mkRequest {
  Method : string;
  URL : string
}.

(** [tracer.Start(ctx, name)]: a new span, the child of the span of [ctx];
    the context returned carries the new span. *)
Definition tracer_Start (ctx : option string) (name : string)
  : Proc (option string) :=
  (emit (EStart name ctx) ;; pret (Some name))%P.

Definition processRequest (ctx : option string) : Proc unit :=
  (_ <- tracer_Start ctx "processRequest" ;;
   defer (emit (EEnd "processRequest")) (pret tt))%P.

Definition handleRequest (ctx : option string) (r : Request) : Proc Response :=
  (ctx' <- tracer_Start ctx "handleRequest" ;;
   defer (emit (EEnd "handleRequest"))
     (emit (ESetAttributes "handleRequest"
              [("http.method", Method r); ("http.url", URL r)]) ;;
      processRequest ctx' ;;
      emit (EAddEvent "handleRequest" "request processed") ;;
      pret (mkResponse StatusOK [] (Text "Hello, world!"))))%P.

Record Env : Type := mkEnv {
  resource_New : option error;
  otlptracegrpc_New : option error;
  http_ListenAndServe : error;
  tp_Shutdown : option error
}.

Definition cleanup (env : Env) : Proc unit :=
  (emit (EShutdown TracerProvider) ;;
   match tp_Shutdown env with
   | Some err => log_Fatal "Failed to shut down tracer provider: " (Some (Plain err))
   | None => pret tt
   end)%P.

Definition initTracer (env : Env) : Proc (Proc unit) :=
  match resource_New env with
  | Some err => log_Fatal "Failed to create resource: " (Some (Plain err))
  | None =>
      match otlptracegrpc_New env with
      | Some err => log_Fatal "Failed to create exporter: " (Some (Plain err))
      | None =>
          (emit (EGlobal "SetTracerProvider") ;;
           emit (EGlobal "SetTextMapPropagator") ;;
           pret (cleanup env))%P
      end
  end.

Definition main (env : Env) : Proc unit :=
  (cleanup <- initTracer env ;;
   defer cleanup
     (emit (EGlobal "Tracer my-service") ;;
      emit (EHandle "/" "handleRequest") ;;
      emit (EListen ":8080") ;;
      log_Fatal "" (Some (Plain (http_ListenAndServe env)))))%P.

End simple_http.

(** *** The client ([callDownstreamService], [main]) *)

Module client.

Record Env : Type := mkEnv {
  resource_New : option error;
  otlptracegrpc_New : option error;
  client_Do : error + string;      (* the error, or the body of the response *)
  tp_Shutdown : option error
}.

Definition cleanup (env : Env) : Proc unit :=
  (emit (EShutdown TracerProvider) ;;
   match tp_Shutdown env with
   | Some err => log_Fatal "Failed to shut down tracer provider: " (Some (Plain err))
   | None => pret tt
   end)%P.

Definition initTracer (env : Env) : Proc (Proc unit) :=
  match resource_New env with
  | Some err => log_Fatal "Failed to create resource: " (Some (Plain err))
  | None =>
      match otlptracegrpc_New env with
      | Some err => log_Fatal "Failed to create exporter: " (Some (Plain err))
      | None =>
          (emit (EGlobal "SetTracerProvider") ;;
           emit (EGlobal "SetTextMapPropagator") ;;
           pret (cleanup env))%P
      end
  end.

Definition callDownstreamService (env : Env) (ctx : option string) : Proc unit :=
  (emit (EStart "callDownstream" ctx) ;;
   defer (emit (EEnd "callDownstream"))
     (emit (ERequest "POST" "http://localhost:8080/user/auth"
              [("id", "1"); ("password", "foobar")]) ;;
      match client_Do env with
      | inl err => emit (ERecordError "callDownstream" err)
      | inr body => defer (emit EBodyClose) (emit (EStdout body))
      end))%P.

Definition main (env : Env) : Proc unit :=
  (cleanup <- initTracer env ;;
   defer cleanup
     (emit (EGlobal "Tracer my-client") ;;
      callDownstreamService env None))%P.

End client.

(** *** Hashes that [bcrypt] writes

    What [GenerateFromPassword] stores has a cost in range, a salt of 22 and
    a hash of 31 encoded bytes, a major version up to ['2'] and a minor
    version that is not ['$']. *)
Definition encodable (p : bcrypt.hashed) : Prop :=
  bcrypt.MinCost <= bcrypt.cost p <= bcrypt.MaxCost /\
  List.length (bcrypt.salt p) = bcrypt.encodedSaltSize /\
  List.length (bcrypt.hash p) = bcrypt.encodedHashSize /\
  byte_val (bcrypt.major p) <= byte_val majorVersion /\
  bcrypt.minor p <> dollar.

(** The stored hash of the fixtures, in its parts. *)
Definition secret_hashed : bcrypt.hashed :=
  bcrypt.mkHashed
    (firstn 31 (bytes_of_string "secret" ++ repeat (chr 46) 31))
    (bytes_of_string "abcdefghijklmnopqrstuv") 10 (chr 50) (chr 97).

(** * Theorems *)

(** ** Slices *)

Lemma obind_Ok {A B} (a : A) (k : A -> outcome B) : obind (Ok a) k = k a.
Proof. reflexivity. Qed.

Lemma index_ok (s : list byte) (i : nat) :
  (i < List.length s)%nat -> exists b, index s i = Ok b.
Proof.
  intro H. unfold index.
  destruct (nth_error s i) as [b|] eqn:E.
  - now exists b.
  - apply nth_error_None in E. lia.
Qed.

Lemma slice_ok (s : list byte) (lo hi : nat) :
  (lo <= hi <= List.length s)%nat ->
  slice s lo hi = Ok (firstn (hi - lo) (skipn lo s)).
Proof.
  intros [H1 H2]. unfold slice.
  apply Nat.leb_le in H1. apply Nat.leb_le in H2.
  now rewrite H1, H2.
Qed.

Lemma slice_from_ok (s : list byte) (lo : nat) :
  (lo <= List.length s)%nat -> slice_from s lo = Ok (skipn lo s).
Proof.
  intro H. unfold slice_from. rewrite slice_ok by lia.
  f_equal. apply firstn_all2. rewrite length_skipn. lia.
Qed.

(** ** bcrypt: which errors, and no panic *)

Lemma settles_bind {A B} (P : A -> Prop) (Q : B -> Prop)
      (m : outcome A) (k : A -> outcome B) :
  settles P m -> (forall a, P a -> settles Q (k a)) -> settles Q (obind m k).
Proof.
  destruct m as [a|e|]; simpl; auto; tauto.
Qed.

Lemma decodeVersion_settles (s : list byte) :
  (3 <= List.length s)%nat ->
  settles (fun v => fst (fst v) = 3%nat \/ fst (fst v) = 4%nat)
          (bcrypt.decodeVersion s).
Proof.
  destruct s as [|b0 [|b1 [|b2 rest]]]; simpl; try lia.
  intros _. unfold bcrypt.decodeVersion, index; simpl.
  destruct (Byte.eqb b0 dollar); simpl; [|reflexivity].
  destruct (byte_val b1 >? byte_val majorVersion); simpl; [reflexivity|].
  destruct (Byte.eqb b2 dollar); simpl; auto.
Qed.

Lemma checkCost_settles (c : Z) :
  settles (fun _ => bcrypt.MinCost <= c <= bcrypt.MaxCost) (bcrypt.checkCost c).
Proof.
  unfold bcrypt.checkCost.
  destruct (c <? bcrypt.MinCost) eqn:E1; simpl; [reflexivity|].
  destruct (c >? bcrypt.MaxCost) eqn:E2; simpl; [reflexivity|].
  apply Z.ltb_ge in E1. rewrite Z.gtb_ltb in E2. apply Z.ltb_ge in E2. lia.
Qed.

Lemma decodeCost_settles (s : list byte) :
  (2 <= List.length s)%nat ->
  settles (fun v => fst v = 3%nat /\ bcrypt.MinCost <= snd v <= bcrypt.MaxCost)
          (bcrypt.decodeCost s).
Proof.
  intro H. unfold bcrypt.decodeCost.
  rewrite slice_ok by lia. rewrite obind_Ok.
  unfold strconv.Atoi.
  destruct (strconv.ParseInt _) as [e|c]; simpl; [reflexivity|].
  eapply settles_bind; [apply checkCost_settles|].
  intros u Hc. simpl in Hc |- *. auto.
Qed.

(** A stored hash of at least [minHashSize] bytes is parsed, or rejected
    with an error that is not [ErrHashTooShort]. *)
Lemma newFromHash_long (h : list byte) :
  (bcrypt.minHashSize <= List.length h)%nat ->
  settles (fun p => bcrypt.MinCost <= bcrypt.cost p <= bcrypt.MaxCost
                    /\ List.length (bcrypt.salt p) = bcrypt.encodedSaltSize)
          (bcrypt.newFromHash h).
Proof.
  unfold bcrypt.minHashSize. intro H. unfold bcrypt.newFromHash.
  destruct (Nat.ltb_spec (List.length h) bcrypt.minHashSize) as [Hlt|_];
    [unfold bcrypt.minHashSize in Hlt; lia|].
  eapply settles_bind; [apply decodeVersion_settles; lia|].
  intros [[n maj] mi] Hn. simpl in Hn.
  rewrite slice_from_ok by lia. rewrite obind_Ok.
  assert (Hlen1 : (55 <= List.length (skipn n h))%nat)
    by (rewrite length_skipn; lia).
  eapply settles_bind; [apply decodeCost_settles; lia|].
  intros [n' c] [Hn' Hc]. simpl in Hn', Hc. subst n'.
  rewrite slice_from_ok by lia. rewrite obind_Ok.
  assert (Hlen2 : (52 <= List.length (skipn 3 (skipn n h)))%nat)
    by (rewrite length_skipn; lia).
  unfold bcrypt.encodedSaltSize.
  rewrite slice_ok by lia. rewrite obind_Ok.
  rewrite slice_from_ok by lia. rewrite obind_Ok.
  unfold settles. cbn [bcrypt.cost bcrypt.salt].
  split; [exact Hc|].
  rewrite Nat.sub_0_r. unfold skipn at 1. rewrite length_firstn. lia.
Qed.

Lemma newFromHash_short (h : list byte) :
  (List.length h < bcrypt.minHashSize)%nat ->
  bcrypt.newFromHash h = Err ErrHashTooShort.
Proof.
  intro H. unfold bcrypt.newFromHash.
  apply Nat.ltb_lt in H. now rewrite H.
Qed.

Lemma newFromHash_no_panic (h : list byte) :
  bcrypt.newFromHash h <> Panic.
Proof.
  destruct (Nat.lt_ge_cases (List.length h) bcrypt.minHashSize) as [H|H].
  - rewrite newFromHash_short by exact H. discriminate.
  - pose proof (newFromHash_long h H) as S.
    destruct (bcrypt.newFromHash h); simpl in S; [discriminate|discriminate|contradiction].
Qed.

Section CompareFacts.

Variable core : list byte -> Z -> list byte -> bcrypt.encoded.

Lemma Compare_short (h pw : list byte) :
  (List.length h < bcrypt.minHashSize)%nat ->
  bcrypt.CompareHashAndPassword core h pw = Err ErrHashTooShort.
Proof.
  intro H. unfold bcrypt.CompareHashAndPassword.
  now rewrite newFromHash_short.
Qed.

Lemma Compare_long (h pw : list byte) :
  (bcrypt.minHashSize <= List.length h)%nat ->
  settles (fun _ => True) (bcrypt.CompareHashAndPassword core h pw).
Proof.
  intro H. unfold bcrypt.CompareHashAndPassword.
  eapply settles_bind; [apply newFromHash_long; exact H|].
  intros p _. simpl.
  destruct (core pw (bcrypt.cost p) (bcrypt.salt p)); simpl; [|reflexivity].
  destruct (bytes_eqb _ _); simpl; auto.
Qed.

(** The comparison never panics, whatever the stored bytes. *)
Lemma Compare_no_panic (h pw : list byte) :
  bcrypt.CompareHashAndPassword core h pw <> Panic.
Proof.
  destruct (Nat.lt_ge_cases (List.length h) bcrypt.minHashSize) as [H|H].
  - rewrite Compare_short by exact H. discriminate.
  - pose proof (Compare_long h pw H) as S.
    destruct (bcrypt.CompareHashAndPassword core h pw); simpl in S;
      [discriminate|discriminate|contradiction].
Qed.

(** [ErrHashTooShort] is the error of the short hashes, and of them only. *)
Lemma Compare_ErrHashTooShort (h pw : list byte) :
  errors_Is_ErrHashTooShort (error_of (bcrypt.CompareHashAndPassword core h pw))
  = Nat.ltb (List.length h) bcrypt.minHashSize.
Proof.
  destruct (Nat.ltb_spec (List.length h) bcrypt.minHashSize) as [H|H].
  - now rewrite Compare_short.
  - pose proof (Compare_long h pw H) as S.
    destruct (bcrypt.CompareHashAndPassword core h pw); simpl in *;
      [reflexivity|exact S|reflexivity].
Qed.

End CompareFacts.

(** ** What one run of each function does to the state *)

Section Runs.

Variable core : list byte -> Z -> list byte -> bcrypt.encoded.
Variable db : sql.DB.

Lemma password_check_run (user : User) (submitted : string) (w : World) :
  password_check core user submitted w =
  (Responded (answer (compare core user submitted)),
   mkWorld (hashLatency w ++ [[("correct", ABool (matched (compare core user submitted)))]])
           (if too_short user then hashError w + 1 else hashError w)
           (spans w) (queries w)).
Proof.
  unfold password_check, too_short, answer, matched.
  rewrite <- (Compare_ErrHashTooShort core _ (bytes_of_string submitted)).
  pose proof (Compare_no_panic core (bytes_of_slice (password user))
                (bytes_of_string submitted)) as NP.
  unfold compare.
  destruct (bcrypt.CompareHashAndPassword core _ _) as [[]|e|];
    [reflexivity| |contradiction].
  simpl. unfold bind, hashLatency_Record, hashError_Add, ret. simpl.
  destruct (is_ErrHashTooShort e); destruct w; reflexivity.
Qed.

(** The state after a lookup: the instruments are as before, and at most
    one query was sent. *)
Lemma getUserFromDB_run (userID : string) (w : World) :
  getUserFromDB db userID w =
  match strconv.Atoi userID with
  | inl err => (inl err, w)
  | inr key =>
      match sql.QueryRow_Scan db key with
      | inl err =>
          (inl err, mkWorld (hashLatency w) (hashError w)
                            (spans w ++ [RecordError err]) (queries w ++ [key]))
      | inr row =>
          (match sql.col_password row with
           | Some str =>
               match hex.DecodeString str with
               | inl err => inl err
               | inr pwHash =>
                   inr (mkUser (sql.col_id row) (sql.col_name row)
                               (sql.col_email row) (Some pwHash))
               end
           | None =>
               inr (mkUser (sql.col_id row) (sql.col_name row)
                           (sql.col_email row) None)
           end,
           mkWorld (hashLatency w) (hashError w) (spans w) (queries w ++ [key]))
      end
  end.
Proof.
  unfold getUserFromDB.
  destruct (strconv.Atoi userID) as [err|key]; [reflexivity|].
  unfold bind, db_QueryRow_Scan.
  destruct (sql.QueryRow_Scan db key) as [err|row]; [reflexivity|].
  destruct (sql.col_password row) as [str|]; [|reflexivity].
  destruct (hex.DecodeString str); reflexivity.
Qed.

Lemma started_app (name : string) (l l' : list SpanEvent) :
  started name (l ++ l') = (started name l + started name l')%nat.
Proof.
  induction l as [|e l IH]; [reflexivity|].
  simpl. destruct e; try exact IH.
  destruct (String.eqb name0 name); simpl; now rewrite IH.
Qed.

Lemma getUserFromDB_instruments (userID : string) (w : World) :
  hashLatency (snd (getUserFromDB db userID w)) = hashLatency w /\
  hashError (snd (getUserFromDB db userID w)) = hashError w /\
  forall name, started name (spans (snd (getUserFromDB db userID w)))
               = started name (spans w).
Proof.
  rewrite getUserFromDB_run.
  destruct (strconv.Atoi userID) as [err|key]; [now simpl|].
  destruct (sql.QueryRow_Scan db key) as [err|row]; simpl; [|now auto].
  repeat split. intro name. rewrite started_app. simpl. lia.
Qed.

Lemma signinHandler_run (r : Request) (w : World) :
  signinHandler core db r w =
  if String.eqb (FormValue r "id") ""
  then (Responded (http_Error "Missing user ID" StatusBadRequest), w)
  else
    match getUserFromDB db (FormValue r "id") w with
    | (inl _, w1) =>
        (Responded (http_Error "Failed to get user" StatusInternalServerError), w1)
    | (inr user, w1) =>
        (Responded (answer (compare core user (FormValue r "password"))),
         mkWorld
           (hashLatency w1 ++
              [[("correct", ABool (matched (compare core user (FormValue r "password"))))]])
           (if too_short user then hashError w1 + 1 else hashError w1)
           (spans w1 ++ [SpanStart "password_check"; SpanEnd "password_check"])
           (queries w1))
    end.
Proof.
  unfold signinHandler.
  destruct (String.eqb (FormValue r "id") ""); [reflexivity|].
  unfold bind at 1.
  destruct (getUserFromDB db (FormValue r "id") w) as [[err|user] w1];
    [reflexivity|].
  unfold bind, span_event, ret.
  rewrite password_check_run. cbn [hashLatency hashError spans queries].
  now rewrite <- app_assoc.
Qed.

Lemma getUserHandler_run (r : Request) (w : World) :
  getUserHandler db r w =
  if String.eqb (URL_Query_Get r "id") ""
  then (Responded (http_Error "Missing user ID" StatusBadRequest), w)
  else
    match getUserFromDB db (URL_Query_Get r "id") w with
    | (inl _, w1) =>
        (Responded (http_Error "Failed to get user" StatusInternalServerError), w1)
    | (inr user, w1) =>
        (Responded (mkResponse StatusOK [("Content-Type", "application/json")]
                      (JSON (Encode_User user))), w1)
    end.
Proof.
  unfold getUserHandler.
  destruct (String.eqb (URL_Query_Get r "id") ""); [reflexivity|].
  unfold bind.
  destruct (getUserFromDB db (URL_Query_Get r "id") w) as [[err|user] w1];
    reflexivity.
Qed.

End Runs.

(** ** The Authentication Check *)

(** C1, as the spec states it, fails: a stored hash of sixty bytes that does
    not begin with ['$'] is rejected by the primitive with
    [InvalidHashPrefixError], so its class is [malformed-hash], and the error
    counter stays where it was. *)
Lemma bad_prefix_not_counted :
  ~ spec_counts_malformed stub_bcrypt
      (mkUser 5 "eli" "eli@example.org" (Some bad_prefix_hash)) "secret" w0.
Proof.
  unfold spec_counts_malformed. intros [_ H].
  assert (E : errorClass (compare stub_bcrypt
                (mkUser 5 "eli" "eli@example.org" (Some bad_prefix_hash)) "secret")
              = class_malformed_hash) by (vm_compute; reflexivity).
  specialize (H E). vm_compute in H. discriminate H.
Qed.

(** C1, amended: one call of the check adds exactly one to the error counter
    if and only if the stored hash is shorter than the 59 bytes of
    [minHashSize] (an absent hash included), which is when the primitive
    reports [ErrHashTooShort]; on every other stored hash the counter is
    unchanged, and so it is on a plain mismatch. *)
Theorem hashError_counts_too_short
  (core : list byte -> Z -> list byte -> bcrypt.encoded)
  (user : User) (submitted : string) (w : World) :
  (hashError (snd (password_check core user submitted w)) = hashError w + 1
   <-> (List.length (bytes_of_slice (password user)) < bcrypt.minHashSize)%nat) /\
  (hashError (snd (password_check core user submitted w)) = hashError w
   <-> (bcrypt.minHashSize <= List.length (bytes_of_slice (password user)))%nat) /\
  ((List.length (bytes_of_slice (password user)) < bcrypt.minHashSize)%nat
   <-> compare core user submitted = Err ErrHashTooShort) /\
  (errorClass (compare core user submitted) = class_mismatch ->
   hashError (snd (password_check core user submitted w)) = hashError w).
Proof.
  rewrite password_check_run. cbn [snd hashError]. unfold too_short.
  pose proof (Compare_ErrHashTooShort core (bytes_of_slice (password user))
                (bytes_of_string submitted)) as HE.
  fold (compare core user submitted) in HE.
  destruct (Nat.ltb_spec (List.length (bytes_of_slice (password user)))
              bcrypt.minHashSize) as [Hlt|Hge].
  - pose proof (Compare_short core _ (bytes_of_string submitted) Hlt) as HS.
    fold (compare core user submitted) in HS.
    repeat split; intros; try lia; try assumption.
    rewrite HS in H. discriminate H.
  - repeat split; intros; try lia.
    rewrite H in HE. discriminate HE.
Qed.

Lemma hashError_counts_too_short_witness :
  hashError (snd (password_check stub_bcrypt
                    (mkUser 1 "ann" "ann@example.org" (Some (stored_hash "secret")))
                    "wrong" w0))
  = hashError w0.
Proof.
  apply (proj2 (proj2 (proj2 (hashError_counts_too_short stub_bcrypt
           (mkUser 1 "ann" "ann@example.org" (Some (stored_hash "secret")))
           "wrong" w0)))).
  vm_compute. reflexivity.
Defined.

(** C2: every call of the check, whatever the comparison returns, appends
    exactly one observation to the latency histogram, and that observation
    carries the boolean result of the match. *)
Theorem one_latency_observation_per_check
  (core : list byte -> Z -> list byte -> bcrypt.encoded)
  (user : User) (submitted : string) (w : World) :
  hashLatency (snd (password_check core user submitted w))
  = hashLatency w ++ [[("correct", ABool (matched (compare core user submitted)))]]
  /\ List.length (hashLatency (snd (password_check core user submitted w)))
     = S (List.length (hashLatency w)).
Proof.
  rewrite password_check_run. cbn [snd hashLatency].
  split; [reflexivity|].
  rewrite length_app. simpl. lia.
Qed.



(** ** POST /user/auth *)

(** C6: [signinHandler] answers 400 when [id] is missing, 500 when the
    lookup fails (a failing store included), 200 with the object
    [Status: OK] when the password matches and 401 otherwise; any two checks
    that do not match, whether by mismatch or by a malformed hash, get the
    same answer. *)
Theorem signinHandler_answers
  (core : list byte -> Z -> list byte -> bcrypt.encoded)
  (db : sql.DB) (r : Request) (w : World) :
  fst (signinHandler core db r w)
  = (if String.eqb (FormValue r "id") ""
     then Responded (http_Error "Missing user ID" StatusBadRequest)
     else
       match fst (getUserFromDB db (FormValue r "id") w) with
       | inl _ =>
           Responded (http_Error "Failed to get user" StatusInternalServerError)
       | inr user =>
           if matched (compare core user (FormValue r "password"))
           then Responded (mkResponse StatusOK [] (JSON [("Status", JStr "OK")]))
           else Responded (http_Error "Not authenticated" StatusUnauthorized)
       end)
  /\ (forall key msg,
      strconv.Atoi (FormValue r "id") = inr key -> sql.fault db key = Some msg ->
      status_of (fst (signinHandler core db r w)) = Some StatusInternalServerError)
  /\ (forall user1 user2 pw1 pw2 w1 w2,
      errorClass (compare core user1 pw1) <> class_none ->
      errorClass (compare core user2 pw2) <> class_none ->
      fst (password_check core user1 pw1 w1) = fst (password_check core user2 pw2 w2)).
Proof.
  split; [|split].
  - rewrite signinHandler_run.
    destruct (String.eqb (FormValue r "id") ""); [reflexivity|].
    destruct (getUserFromDB db (FormValue r "id") w) as [[err|user] w1];
      [reflexivity|].
    cbn [fst]. unfold answer.
    destruct (matched (compare core user (FormValue r "password"))); reflexivity.
  - intros key msg Hkey Hfault.
    rewrite signinHandler_run.
    destruct (String.eqb_spec (FormValue r "id") "") as [E|_];
      [rewrite E in Hkey; discriminate Hkey|].
    rewrite getUserFromDB_run, Hkey.
    unfold sql.QueryRow_Scan. rewrite Hfault. reflexivity.
  - intros user1 user2 pw1 pw2 w1 w2 H1 H2.
    rewrite !password_check_run. cbn [fst]. unfold answer, matched.
    pose proof (Compare_no_panic core (bytes_of_slice (password user1))
                  (bytes_of_string pw1)) as NP1.
    pose proof (Compare_no_panic core (bytes_of_slice (password user2))
                  (bytes_of_string pw2)) as NP2.
    fold (compare core user1 pw1) in NP1. fold (compare core user2 pw2) in NP2.
    destruct (compare core user1 pw1) as [[]|e1|];
      [now elim H1| |contradiction].
    destruct (compare core user2 pw2) as [[]|e2|];
      [now elim H2|reflexivity|contradiction].
Qed.

Lemma signinHandler_answers_witness :
  status_of (fst (signinHandler stub_bcrypt db_down (post "1" "secret") w0))
  = Some StatusInternalServerError
  /\ fst (password_check stub_bcrypt
            (mkUser 1 "ann" "ann@example.org" (Some (stored_hash "secret"))) "wrong" w0)
     = fst (password_check stub_bcrypt
              (mkUser 5 "eli" "eli@example.org" (Some bad_prefix_hash)) "secret" w0).
Proof.
  split.
  - apply (proj1 (proj2 (signinHandler_answers stub_bcrypt db_down
                           (post "1" "secret") w0)) 1 "connection refused").
    + reflexivity.
    + reflexivity.
  - apply (proj2 (proj2 (signinHandler_answers stub_bcrypt db_down
                           (post "1" "secret") w0))).
    + vm_compute. discriminate.
    + vm_compute. discriminate.
Defined.

(** C8: an observation that [signinHandler] adds to the latency histogram
    has the single attribute [correct], a boolean; no key of it names the
    user identifier and no value of it is the identifier of the request; the
    view of [setupOpenTelemetry] exports it as it is. *)
Theorem latency_attributes_exclude_identifier
  (core : list byte -> Z -> list byte -> bcrypt.encoded)
  (db : sql.DB) (r : Request) (w : World) (attrs : list KeyValue) :
  In attrs (new_observations w (snd (signinHandler core db r w))) ->
  map fst attrs = ["correct"] /\
  exported_attrs hashLatency_name attrs = attrs /\
  forall k v, In (k, v) attrs ->
    k <> "user_id" /\ k <> "id" /\ v <> AString (FormValue r "id") /\
    exists b, v = ABool b.
Proof.
  unfold new_observations. rewrite signinHandler_run.
  destruct (String.eqb (FormValue r "id") "").
  - cbn [snd]. rewrite skipn_all. intros [].
  - pose proof (getUserFromDB_instruments db (FormValue r "id") w) as [HL _].
    destruct (getUserFromDB db (FormValue r "id") w) as [[err|user] w1];
      cbn [snd] in HL |- *.
    + rewrite HL, skipn_all. intros [].
    + cbn [hashLatency]. rewrite HL, skipn_app, skipn_all, Nat.sub_diag.
      simpl. intros [<-|[]].
      split; [reflexivity|split; [reflexivity|]].
      intros k v [E|[]]. inversion E; subst.
      repeat split; try discriminate. eexists; reflexivity.
Qed.

Lemma latency_attributes_exclude_identifier_witness :
  In [("correct", ABool false)]
     (new_observations w0 (snd (signinHandler stub_bcrypt db1 (post "1" "wrong") w0)))
  /\ map fst [("correct", ABool false)] = ["correct"].
Proof.
  assert (H : In [("correct", ABool false)]
     (new_observations w0 (snd (signinHandler stub_bcrypt db1 (post "1" "wrong") w0))))
    by (vm_compute; left; reflexivity).
  split; [exact H|].
  exact (proj1 (latency_attributes_exclude_identifier stub_bcrypt db1
                  (post "1" "wrong") w0 _ H)).
Defined.

(** C10: when the lookup of [signinHandler] fails, or the identifier is
    missing, the run leaves the latency histogram and the error counter as
    they were and starts no [password_check] span; so a run that touches
    either instrument is one whose lookup returned a record. *)
Theorem failed_lookup_leaves_instruments
  (core : list byte -> Z -> list byte -> bcrypt.encoded)
  (db : sql.DB) (r : Request) (w : World) :
  ((FormValue r "id" = "" \/
    exists err, fst (getUserFromDB db (FormValue r "id") w) = inl err) ->
   hashLatency (snd (signinHandler core db r w)) = hashLatency w /\
   hashError (snd (signinHandler core db r w)) = hashError w /\
   started "password_check" (spans (snd (signinHandler core db r w)))
   = started "password_check" (spans w))
  /\
  ((hashLatency (snd (signinHandler core db r w)) <> hashLatency w \/
    hashError (snd (signinHandler core db r w)) <> hashError w) ->
   FormValue r "id" <> "" /\
   exists user, fst (getUserFromDB db (FormValue r "id") w) = inr user).
Proof.
  rewrite signinHandler_run.
  pose proof (getUserFromDB_instruments db (FormValue r "id") w) as [HL [HE HS]].
  destruct (String.eqb_spec (FormValue r "id") "") as [Hid|Hid].
  - cbn [snd]. split; [auto|]. intros [H|H]; now elim H.
  - destruct (getUserFromDB db (FormValue r "id") w) as [[err|user] w1];
      cbn [fst snd] in *.
    + split; [intros _; auto|]. intros [H|H]; now elim H.
    + split.
      * intros [H|[err H]]; [contradiction|discriminate].
      * intros _. split; [exact Hid|now exists user].
Qed.

Lemma failed_lookup_leaves_instruments_witness :
  (exists err, fst (getUserFromDB db1 (FormValue (post "9" "secret") "id") w0) = inl err)
  /\ hashLatency (snd (signinHandler stub_bcrypt db1 (post "9" "secret") w0))
     = hashLatency w0.
Proof.
  assert (H : exists err,
             fst (getUserFromDB db1 (FormValue (post "9" "secret") "id") w0) = inl err)
    by (exists ErrNoRows; reflexivity).
  split; [exact H|].
  exact (proj1 (proj1 (failed_lookup_leaves_instruments stub_bcrypt db1
                         (post "9" "secret") w0) (or_intror H))).
Defined.

(** ** The User Lookup *)

Lemma find_absent (key : Z) (rows : list sql.Row) :
  (forall row, In row rows -> sql.col_id row <> key) ->
  find (fun r => sql.col_id r =? key) rows = None.
Proof.
  induction rows as [|row rows IH]; intro H; [reflexivity|].
  simpl. destruct (Z.eqb_spec (sql.col_id row) key) as [E|_].
  - elim (H row (or_introl eq_refl) E).
  - apply IH. intros row' Hin. apply H. now right.
Qed.

Lemma find_public_part (key : Z) (rows rows' : list sql.Row) :
  map public_part rows = map public_part rows' ->
  match find (fun r => sql.col_id r =? key) rows,
        find (fun r => sql.col_id r =? key) rows' with
  | Some row, Some row' => public_part row = public_part row'
  | None, None => True
  | _, _ => False
  end.
Proof.
  revert rows'.
  induction rows as [|row rows IH]; intros [|row' rows'] H;
    try discriminate H; [exact I|].
  simpl in H.
  assert (Hrow : public_part row = public_part row') by congruence.
  assert (Hrows : map public_part rows = map public_part rows') by congruence.
  assert (Hid : sql.col_id row = sql.col_id row')
    by (unfold public_part in Hrow; congruence).
  simpl. rewrite <- Hid.
  destruct (sql.col_id row =? key); [exact Hrow|].
  apply IH, Hrows.
Qed.

(** C3, as the spec states it, fails: user 9 is not in the working store
    [db1], and the request is answered with 500, not 404. *)
Lemma absent_identifier_not_404 :
  ~ spec_not_found_is_404 stub_bcrypt db1 (post "9" "secret") w0.
Proof.
  intro H. specialize (H 9 eq_refl eq_refl).
  vm_compute in H. discriminate H.
Qed.

(** C3, amended: for an identifier absent from a working store the lookup
    returns [sql.ErrNoRows], an error value distinct from every store
    failure; [signinHandler] answers it as it answers every failed lookup,
    with 500, and answers no request with 404. *)
Theorem absent_identifier_is_ErrNoRows
  (core : list byte -> Z -> list byte -> bcrypt.encoded)
  (db : sql.DB) (r : Request) (w : World) (key : Z) :
  strconv.Atoi (FormValue r "id") = inr key ->
  sql.fault db key = None ->
  (forall row, In row (sql.users db) -> sql.col_id row <> key) ->
  fst (getUserFromDB db (FormValue r "id") w) = inl ErrNoRows /\
  (forall msg, ErrNoRows <> StoreFault msg) /\
  fst (signinHandler core db r w)
  = Responded (http_Error "Failed to get user" StatusInternalServerError) /\
  (forall r' w', status_of (fst (signinHandler core db r' w')) <> Some StatusNotFound).
Proof.
  intros Hkey Hfault Habsent.
  assert (Hfetch : fst (getUserFromDB db (FormValue r "id") w) = inl ErrNoRows).
  { rewrite getUserFromDB_run, Hkey.
    unfold sql.QueryRow_Scan. rewrite Hfault, find_absent by exact Habsent.
    reflexivity. }
  split; [exact Hfetch|]. split; [discriminate|]. split.
  - rewrite signinHandler_run.
    destruct (String.eqb_spec (FormValue r "id") "") as [E|_].
    + rewrite E in Hkey. discriminate Hkey.
    + destruct (getUserFromDB db (FormValue r "id") w) as [[err|user] w1];
        [reflexivity|discriminate Hfetch].
  - intros r' w'. rewrite signinHandler_run.
    destruct (String.eqb (FormValue r' "id") ""); [discriminate|].
    destruct (getUserFromDB db (FormValue r' "id") w') as [[err|user] w1];
      [discriminate|].
    cbn [fst]. unfold answer.
    destruct (matched _); discriminate.
Qed.

Lemma absent_identifier_is_ErrNoRows_witness :
  fst (getUserFromDB db1 (FormValue (post "9" "secret") "id") w0) = inl ErrNoRows.
Proof.
  apply (absent_identifier_is_ErrNoRows stub_bcrypt db1 (post "9" "secret") w0 9).
  - reflexivity.
  - reflexivity.
  - intros row Hin. simpl in Hin.
    repeat (destruct Hin as [<-|Hin]; [discriminate|]). destruct Hin.
Defined.

(** C4, as the spec states it, fails: the identifier [abc] does not parse,
    and the request is answered with 500, not 400. *)
Lemma unparseable_identifier_not_400 :
  ~ spec_unparseable_is_400 stub_bcrypt db1 (post "abc" "secret") w0.
Proof.
  intro H.
  destruct (H (NumError "Atoi" "abc" ErrSyntax) eq_refl) as [Hstatus _].
  vm_compute in Hstatus. discriminate Hstatus.
Qed.

(** C4, amended: for an identifier that [strconv.Atoi] rejects the lookup
    returns the conversion error and leaves the state as it was, so no query
    is sent; [signinHandler] answers a non-empty such identifier with 500,
    and with 400 only the empty one. *)
Theorem unparseable_identifier_no_query
  (core : list byte -> Z -> list byte -> bcrypt.encoded)
  (db : sql.DB) (r : Request) (w : World) (err : error) :
  strconv.Atoi (FormValue r "id") = inl err ->
  getUserFromDB db (FormValue r "id") w = (inl err, w) /\
  snd (signinHandler core db r w) = w /\
  (FormValue r "id" <> "" ->
   fst (signinHandler core db r w)
   = Responded (http_Error "Failed to get user" StatusInternalServerError)) /\
  (FormValue r "id" = "" ->
   fst (signinHandler core db r w)
   = Responded (http_Error "Missing user ID" StatusBadRequest)).
Proof.
  intro Herr.
  assert (Hfetch : getUserFromDB db (FormValue r "id") w = (inl err, w))
    by (rewrite getUserFromDB_run, Herr; reflexivity).
  split; [exact Hfetch|].
  rewrite signinHandler_run, Hfetch.
  destruct (String.eqb_spec (FormValue r "id") "") as [E|E]; cbn [fst snd].
  - split; [reflexivity|]. split; intro H; [contradiction|reflexivity].
  - split; [reflexivity|]. split; intro H; [reflexivity|contradiction].
Qed.

Lemma unparseable_identifier_no_query_witness :
  snd (signinHandler stub_bcrypt db1 (post "abc" "secret") w0) = w0 /\
  fst (signinHandler stub_bcrypt db1 (post "abc" "secret") w0)
  = Responded (http_Error "Failed to get user" StatusInternalServerError).
Proof.
  pose proof (unparseable_identifier_no_query stub_bcrypt db1 (post "abc" "secret")
                w0 (NumError "Atoi" "abc" ErrSyntax) eq_refl) as [_ [H1 [H2 _]]].
  split; [exact H1|].
  apply H2. discriminate.
Defined.

(** C7, as the spec states it, fails: the credential of user 4 in [db1] is
    the hex string [abcd]; it decodes, the lookup returns the record with
    the two bytes as its hash, and the primitive rejects them as too
    short. *)
Lemma fetched_hash_not_well_formed :
  ~ spec_fetched_hash_well_formed db1 "4" w0.
Proof.
  intro H.
  destruct (H (mkUser 4 "dee" "dee@example.org" (Some [xab; xcd])) eq_refl)
    as [Habsent|[h [Hh Hwf]]].
  - discriminate Habsent.
  - injection Hh as <-. vm_compute in Hwf. discriminate Hwf.
Qed.

(** C7, amended: when the stored credential is not a hex string, the lookup
    returns the decoding error, [signinHandler] answers 500 and neither
    instrument moves, so the failure is no authentication failure; a record
    that the lookup does return has no hash, for a NULL credential, or the
    bytes the stored string decodes to, whatever they are. *)
Theorem undecodable_credential_is_lookup_error
  (core : list byte -> Z -> list byte -> bcrypt.encoded)
  (db : sql.DB) (r : Request) (w : World) :
  (forall key row str err,
      strconv.Atoi (FormValue r "id") = inr key ->
      sql.QueryRow_Scan db key = inr row ->
      sql.col_password row = Some str ->
      hex.DecodeString str = inl err ->
      fst (getUserFromDB db (FormValue r "id") w) = inl err /\
      fst (signinHandler core db r w)
      = Responded (http_Error "Failed to get user" StatusInternalServerError) /\
      hashLatency (snd (signinHandler core db r w)) = hashLatency w /\
      hashError (snd (signinHandler core db r w)) = hashError w)
  /\
  (forall user,
      fst (getUserFromDB db (FormValue r "id") w) = inr user ->
      exists key row,
        strconv.Atoi (FormValue r "id") = inr key /\
        sql.QueryRow_Scan db key = inr row /\
        ((sql.col_password row = None /\ password user = None) \/
         exists str h, sql.col_password row = Some str /\
                       hex.DecodeString str = inr h /\ password user = Some h)).
Proof.
  split.
  - intros key row str err Hkey Hrow Hpw Hdec.
    assert (Hfetch : getUserFromDB db (FormValue r "id") w
                     = (inl err, mkWorld (hashLatency w) (hashError w) (spans w)
                                         (queries w ++ [key])))
      by (rewrite getUserFromDB_run, Hkey, Hrow, Hpw, Hdec; reflexivity).
    rewrite signinHandler_run, Hfetch.
    destruct (String.eqb_spec (FormValue r "id") "") as [E|_].
    + rewrite E in Hkey. discriminate Hkey.
    + cbn. auto.
  - intros user. rewrite getUserFromDB_run.
    destruct (strconv.Atoi (FormValue r "id")) as [err|key]; [discriminate|].
    destruct (sql.QueryRow_Scan db key) as [err|row] eqn:Hrow; [discriminate|].
    cbn [fst]. intro H. exists key, row.
    split; [reflexivity|]. split; [exact Hrow|].
    destruct (sql.col_password row) as [str|].
    + destruct (hex.DecodeString str) as [err|h] eqn:Hdec; [discriminate|].
      injection H as <-. right. exists str, h. auto.
    + injection H as <-. left. auto.
Qed.

Lemma undecodable_credential_is_lookup_error_witness :
  fst (signinHandler stub_bcrypt db1 (post "3" "secret") w0)
  = Responded (http_Error "Failed to get user" StatusInternalServerError).
Proof.
  apply (proj1 (undecodable_credential_is_lookup_error stub_bcrypt db1
                  (post "3" "secret") w0)
           3 (sql.mkRow 3 "cyd" "cyd@example.org" (Some "zz")) "zz"
           (InvalidByteError (chr 122))); reflexivity.
Defined.

(** ** GET /user *)

(** C9: the body of a 200 answer of [getUserHandler] is the object of the
    members [id], [name] and [email] and nothing else; records that differ
    in their credential hash only encode alike; and on two stores that
    differ in credentials only, a request answered 200 on both gets the same
    answer on both. *)
Theorem getUserHandler_hides_credential
  (db : sql.DB) (r : Request) (w : World) :
  (forall resp,
      fst (getUserHandler db r w) = Responded resp ->
      StatusCode resp = StatusOK ->
      exists i n e,
        body resp = JSON [("id", JNum i); ("name", JStr n); ("email", JStr e)])
  /\
  (forall u1 u2,
      ID u1 = ID u2 -> Name u1 = Name u2 -> Email u1 = Email u2 ->
      Encode_User u1 = Encode_User u2)
  /\
  (forall db' w',
      same_but_credentials db db' ->
      status_of (fst (getUserHandler db r w)) = Some StatusOK ->
      status_of (fst (getUserHandler db' r w')) = Some StatusOK ->
      fst (getUserHandler db r w) = fst (getUserHandler db' r w')).
Proof.
  split; [|split].
  - intros resp. rewrite getUserHandler_run.
    destruct (String.eqb (URL_Query_Get r "id") "").
    + cbn [fst]. intros [= <-]. discriminate.
    + destruct (getUserFromDB db (URL_Query_Get r "id") w) as [[err|user] w1];
        cbn [fst]; intros [= <-]; [discriminate|].
      intros _. exists (ID user), (Name user), (Email user). reflexivity.
  - intros u1 u2 H1 H2 H3. unfold Encode_User. now rewrite H1, H2, H3.
  - intros db' w' [Hfault Hrows].
    rewrite !getUserHandler_run.
    destruct (String.eqb (URL_Query_Get r "id") ""); [discriminate|].
    rewrite !getUserFromDB_run.
    destruct (strconv.Atoi (URL_Query_Get r "id")) as [err|key]; [discriminate|].
    unfold sql.QueryRow_Scan. rewrite <- Hfault.
    destruct (sql.fault db key); [discriminate|].
    pose proof (find_public_part key _ _ Hrows) as Hfind.
    destruct (find _ (sql.users db)) as [row|];
      destruct (find _ (sql.users db')) as [row'|];
      try contradiction; try discriminate.
    unfold public_part in Hfind. injection Hfind as Hi Hn He.
    destruct (sql.col_password row) as [str|];
      [destruct (hex.DecodeString str); [discriminate|]|];
      (destruct (sql.col_password row') as [str'|];
       [destruct (hex.DecodeString str'); [discriminate|]|]);
      intros _ _; cbn; unfold Encode_User; cbn; now rewrite Hi, Hn, He.
Qed.

Lemma getUserHandler_hides_credential_witness :
  same_but_credentials db1 db2 /\
  fst (getUserHandler db1 (get "1") w0) = fst (getUserHandler db2 (get "1") w0).
Proof.
  assert (H : same_but_credentials db1 db2) by (split; reflexivity).
  split; [exact H|].
  apply (proj2 (proj2 (getUserHandler_hides_credential db1 (get "1") w0)) db2 w0 H);
    reflexivity.
Defined.

(** ** More on the lookup *)

Lemma skipn_length_app {A} (l l' : list A) :
  skipn (List.length l) (l ++ l') = l'.
Proof.
  rewrite skipn_app, skipn_all, Nat.sub_diag. reflexivity.
Qed.

Lemma skipn_length_self {A} (l : list A) : skipn (List.length l) l = [].
Proof. apply skipn_all. Qed.

(** What the lookup returns does not depend on the state it runs in. *)
Lemma getUserFromDB_value (db : sql.DB) (userID : string) (w w' : World) :
  fst (getUserFromDB db userID w) = fst (getUserFromDB db userID w').
Proof.
  rewrite !getUserFromDB_run.
  destruct (strconv.Atoi userID) as [err|key]; [reflexivity|].
  destruct (sql.QueryRow_Scan db key); reflexivity.
Qed.

(** X1: a record the lookup returns is the first row of the table whose id
    is the integer value of the identifier: its [ID] is that integer and its
    name and e-mail are the row's; the query for that key met no failure. *)
Theorem getUserFromDB_returns_queried_row
  (db : sql.DB) (userID : string) (w : World) (user : User) :
  fst (getUserFromDB db userID w) = inr user ->
  exists key row,
    strconv.Atoi userID = inr key /\
    sql.fault db key = None /\
    find (fun r => sql.col_id r =? key) (sql.users db) = Some row /\
    In row (sql.users db) /\
    ID user = key /\ Name user = sql.col_name row /\ Email user = sql.col_email row.
Proof.
  rewrite getUserFromDB_run.
  destruct (strconv.Atoi userID) as [err|key]; [discriminate|].
  unfold sql.QueryRow_Scan.
  destruct (sql.fault db key) as [msg|] eqn:Hfault; [discriminate|].
  destruct (find _ (sql.users db)) as [row|] eqn:Hfind; [|discriminate].
  cbn [fst]. intro H. exists key, row.
  destruct (find_some _ _ Hfind) as [Hin Hid]. apply Z.eqb_eq in Hid.
  assert (Huser : ID user = key /\ Name user = sql.col_name row
                  /\ Email user = sql.col_email row).
  { destruct (sql.col_password row) as [str|].
    - destruct (hex.DecodeString str); [discriminate|].
      injection H as <-. cbn. auto.
    - injection H as <-. cbn. auto. }
  repeat split; try reflexivity; try assumption; apply Huser.
Qed.

Lemma getUserFromDB_returns_queried_row_witness :
  exists key row,
    strconv.Atoi "2" = inr key /\
    sql.fault db1 key = None /\
    find (fun r => sql.col_id r =? key) (sql.users db1) = Some row /\
    In row (sql.users db1) /\
    ID (mkUser 2 "bob" "bob@example.org" None) = key /\
    Name (mkUser 2 "bob" "bob@example.org" None) = sql.col_name row /\
    Email (mkUser 2 "bob" "bob@example.org" None) = sql.col_email row.
Proof.
  apply (getUserFromDB_returns_queried_row db1 "2" w0).
  reflexivity.
Defined.

(** The span events of a lookup. *)
Lemma getUserFromDB_spans (db : sql.DB) (userID : string) (w : World) :
  spans (snd (getUserFromDB db userID w))
  = spans w ++
    match strconv.Atoi userID with
    | inl _ => []
    | inr key =>
        match sql.QueryRow_Scan db key with
        | inl err => [RecordError err]
        | inr _ => []
        end
    end.
Proof.
  rewrite getUserFromDB_run.
  destruct (strconv.Atoi userID) as [err|key];
    [now rewrite app_nil_r|].
  destruct (sql.QueryRow_Scan db key) as [err|row]; cbn [snd spans];
    [reflexivity|now rewrite app_nil_r].
Qed.

(** X2: the lookup records an error on the span of the request exactly when
    the query fails, and then that error once; the error of an identifier
    that does not parse and the error of a credential that does not decode
    are returned without being recorded. *)
Theorem lookup_records_query_failures_only
  (db : sql.DB) (userID : string) (w : World) :
  recorded (new_spans w (snd (getUserFromDB db userID w)))
  = match strconv.Atoi userID with
    | inl _ => []
    | inr key =>
        match sql.QueryRow_Scan db key with
        | inl err => [err]
        | inr _ => []
        end
    end
  /\
  (forall err,
      fst (getUserFromDB db userID w) = inl err ->
      recorded (new_spans w (snd (getUserFromDB db userID w))) = [] ->
      strconv.Atoi userID = inl err \/
      exists key row str,
        strconv.Atoi userID = inr key /\
        sql.QueryRow_Scan db key = inr row /\
        sql.col_password row = Some str /\
        hex.DecodeString str = inl err).
Proof.
  unfold new_spans. rewrite getUserFromDB_spans, skipn_length_app.
  rewrite getUserFromDB_run.
  destruct (strconv.Atoi userID) as [e|key].
  - split; [reflexivity|]. cbn [fst]. intros err [= <-] _. now left.
  - destruct (sql.QueryRow_Scan db key) as [e|row] eqn:Hrow.
    + split; [reflexivity|]. intros err _ H. discriminate H.
    + split; [reflexivity|]. cbn [fst]. intros err H _. right.
      destruct (sql.col_password row) as [str|] eqn:Hpw; [|discriminate H].
      destruct (hex.DecodeString str) as [e|h] eqn:Hdec; [|discriminate H].
      injection H as <-. exists key, row, str. auto.
Qed.

(** X3: each handler sends exactly one query, for the integer value of the
    identifier, when the identifier is not empty and parses (also when the
    store then fails), and none otherwise. *)
Theorem handlers_send_at_most_one_query
  (core : list byte -> Z -> list byte -> bcrypt.encoded)
  (db : sql.DB) (r : Request) (w : World) :
  new_queries w (snd (signinHandler core db r w))
  = match strconv.Atoi (FormValue r "id") with
    | inr key => [key]
    | inl _ => []
    end
  /\
  new_queries w (snd (getUserHandler db r w))
  = match strconv.Atoi (URL_Query_Get r "id") with
    | inr key => [key]
    | inl _ => []
    end.
Proof.
  unfold new_queries. split.
  - rewrite signinHandler_run.
    destruct (String.eqb_spec (FormValue r "id") "") as [E|_].
    + rewrite E. cbn [snd]. now rewrite skipn_length_self.
    + rewrite getUserFromDB_run.
      destruct (strconv.Atoi (FormValue r "id")) as [err|key];
        [cbn [snd]; now rewrite skipn_length_self|].
      destruct (sql.QueryRow_Scan db key) as [err|row].
      * cbn [snd queries]. apply skipn_length_app.
      * destruct (match sql.col_password row with Some _ => _ | None => _ end);
          cbn [snd queries]; apply skipn_length_app.
  - rewrite getUserHandler_run.
    destruct (String.eqb_spec (URL_Query_Get r "id") "") as [E|_].
    + rewrite E. cbn [snd]. now rewrite skipn_length_self.
    + rewrite getUserFromDB_run.
      destruct (strconv.Atoi (URL_Query_Get r "id")) as [err|key];
        [cbn [snd]; now rewrite skipn_length_self|].
      destruct (sql.QueryRow_Scan db key) as [err|row].
      * cbn [snd queries]. apply skipn_length_app.
      * destruct (match sql.col_password row with Some _ => _ | None => _ end);
          cbn [snd queries]; apply skipn_length_app.
Qed.

(** ** More on the two handlers *)

(** X4: the span events a sign-in adds are well bracketed: the
    [password_check] span is started at most once and, whatever the
    comparison returns, ended before the handler returns. *)
Theorem signinHandler_spans_well_bracketed
  (core : list byte -> Z -> list byte -> bcrypt.encoded)
  (db : sql.DB) (r : Request) (w : World) :
  well_bracketed (new_spans w (snd (signinHandler core db r w))) [] = true /\
  started "password_check" (new_spans w (snd (signinHandler core db r w)))
  = ended "password_check" (new_spans w (snd (signinHandler core db r w))) /\
  (started "password_check" (new_spans w (snd (signinHandler core db r w))) <= 1)%nat.
Proof.
  unfold new_spans. rewrite signinHandler_run.
  destruct (String.eqb (FormValue r "id") "").
  - cbn [snd]. rewrite skipn_length_self. cbn. auto.
  - pose proof (getUserFromDB_spans db (FormValue r "id") w) as HS.
    destruct (getUserFromDB db (FormValue r "id") w) as [[err|user] w1] eqn:Hrun.
    + cbn [snd] in HS |- *. rewrite HS, skipn_length_app.
      destruct (strconv.Atoi (FormValue r "id")) as [e|key]; [cbn; auto|].
      destruct (sql.QueryRow_Scan db key); cbn; auto.
    + cbn [snd spans] in HS |- *. rewrite HS.
      assert (Hnil : match strconv.Atoi (FormValue r "id") with
                     | inl _ => []
                     | inr key =>
                         match sql.QueryRow_Scan db key with
                         | inl err => [RecordError err]
                         | inr _ => []
                         end
                     end = []).
      { rewrite getUserFromDB_run in Hrun.
        destruct (strconv.Atoi (FormValue r "id")) as [e|key]; [reflexivity|].
        destruct (sql.QueryRow_Scan db key); [discriminate Hrun|reflexivity]. }
      rewrite Hnil, app_nil_r, skipn_length_app. cbn. auto.
Qed.

(** X5: a sign-in depends on the identifier through its integer value only:
    two requests whose identifiers parse to the same integer, with the same
    password, get the same answer and change the state alike. *)
Theorem signinHandler_id_by_value
  (core : list byte -> Z -> list byte -> bcrypt.encoded)
  (db : sql.DB) (r r' : Request) (w : World) (key : Z) :
  strconv.Atoi (FormValue r "id") = inr key ->
  strconv.Atoi (FormValue r' "id") = inr key ->
  FormValue r "password" = FormValue r' "password" ->
  signinHandler core db r w = signinHandler core db r' w.
Proof.
  intros H H' Hpw.
  rewrite !signinHandler_run, !getUserFromDB_run, H, H', Hpw.
  destruct (String.eqb_spec (FormValue r "id") "") as [E|_];
    [rewrite E in H; discriminate H|].
  destruct (String.eqb_spec (FormValue r' "id") "") as [E|_];
    [rewrite E in H'; discriminate H'|].
  reflexivity.
Qed.

Lemma signinHandler_id_by_value_witness :
  signinHandler stub_bcrypt db1 (post "1" "secret") w0
  = signinHandler stub_bcrypt db1 (post "+01" "secret") w0.
Proof.
  apply (signinHandler_id_by_value stub_bcrypt db1 (post "1" "secret")
           (post "+01" "secret") w0 1); reflexivity.
Defined.


(** X7: [getUserHandler] always answers, with 400, 500 or 200: 400 exactly
    when the query has no [id], 500 exactly when it has one and the lookup
    fails, and 200 with the content type [application/json] otherwise. *)
Theorem getUserHandler_answers (db : sql.DB) (r : Request) (w : World) :
  exists resp,
    fst (getUserHandler db r w) = Responded resp /\
    (StatusCode resp = StatusBadRequest <-> URL_Query_Get r "id" = "") /\
    (StatusCode resp = StatusInternalServerError <->
     URL_Query_Get r "id" <> "" /\
     exists err, fst (getUserFromDB db (URL_Query_Get r "id") w) = inl err) /\
    (StatusCode resp = StatusOK <->
     URL_Query_Get r "id" <> "" /\
     exists user, fst (getUserFromDB db (URL_Query_Get r "id") w) = inr user) /\
    (StatusCode resp = StatusOK ->
     Header resp = [("Content-Type", "application/json")]).
Proof.
  rewrite getUserHandler_run.
  destruct (String.eqb_spec (URL_Query_Get r "id") "") as [E|E].
  - eexists. split; [reflexivity|]. cbn.
    repeat split; intros; try discriminate; try tauto.
  - destruct (getUserFromDB db (URL_Query_Get r "id") w) as [[err|user] w1];
      cbn [fst]; eexists; (split; [reflexivity|]); cbn.
    + repeat split; intros; try discriminate; try tauto; eauto.
      * destruct H as [_ [u Hu]]. discriminate Hu.
    + repeat split; intros; try discriminate; try tauto; eauto.
      * destruct H as [_ [e He]]. discriminate He.
Qed.

(** ** Stored credentials *)

Lemma hex_byte_round_trip (b : byte) :
  (hex.reverseHexTable (byte_of_ascii (hexdigit (Byte.to_N b / 16))) >? 15) = false /\
  (hex.reverseHexTable (byte_of_ascii (hexdigit (Byte.to_N b mod 16))) >? 15) = false /\
  byte_of_Z
    (Z.lor
       (Z.shiftl (hex.reverseHexTable (byte_of_ascii (hexdigit (Byte.to_N b / 16)))) 4)
       (hex.reverseHexTable (byte_of_ascii (hexdigit (Byte.to_N b mod 16)))))
  = b.
Proof.
  destruct b; vm_compute; repeat split.
Qed.

Lemma DecodeString_EncodeToString (h : list byte) :
  hex.DecodeString (EncodeToString h) = inr h.
Proof.
  unfold hex.DecodeString, bytes_of_string.
  induction h as [|b h IH]; [reflexivity|].
  cbn [EncodeToString].
  change (list_byte_of_string
            (String (hexdigit (Byte.to_N b / 16))
               (String (hexdigit (Byte.to_N b mod 16)) (EncodeToString h))))
    with (byte_of_ascii (hexdigit (Byte.to_N b / 16))
            :: byte_of_ascii (hexdigit (Byte.to_N b mod 16))
            :: list_byte_of_string (EncodeToString h)).
  cbn [hex.Decode].
  destruct (hex_byte_round_trip b) as [Ha [Hb Hab]].
  rewrite Ha, Hb, IH, Hab. reflexivity.
Qed.

(** X8: the lookup undoes the hex encoding of a stored credential: when the
    row of the identifier holds the lower-case hex string of a byte
    sequence, the record returned has exactly that sequence as its hash
    (and the row's id, name and e-mail). *)
Theorem stored_hex_is_fetched
  (db : sql.DB) (userID : string) (w : World)
  (key : Z) (row : sql.Row) (h : list byte) :
  strconv.Atoi userID = inr key ->
  sql.QueryRow_Scan db key = inr row ->
  sql.col_password row = Some (EncodeToString h) ->
  fst (getUserFromDB db userID w)
  = inr (mkUser (sql.col_id row) (sql.col_name row) (sql.col_email row) (Some h)).
Proof.
  intros Hkey Hrow Hpw.
  rewrite getUserFromDB_run, Hkey, Hrow, Hpw, DecodeString_EncodeToString.
  reflexivity.
Qed.

Lemma stored_hex_is_fetched_witness :
  fst (getUserFromDB db1 "5" w0)
  = inr (mkUser 5 "eli" "eli@example.org" (Some bad_prefix_hash)).
Proof.
  apply (stored_hex_is_fetched db1 "5" w0 5
           (sql.mkRow 5 "eli" "eli@example.org" (Some (EncodeToString bad_prefix_hash)))
           bad_prefix_hash); reflexivity.
Defined.

(** ** A sequence of sign-ins *)

Lemma signinHandler_instruments
  (core : list byte -> Z -> list byte -> bcrypt.encoded)
  (db : sql.DB) (r : Request) (w : World) :
  List.length (hashLatency (snd (signinHandler core db r w)))
  = (List.length (hashLatency w) + (if lookup_succeeds db r then 1 else 0))%nat /\
  hashError (snd (signinHandler core db r w))
  = hashError w + (if lookup_too_short db r then 1 else 0).
Proof.
  unfold lookup_succeeds, lookup_too_short.
  rewrite signinHandler_run.
  rewrite (getUserFromDB_value db (FormValue r "id") w0 w).
  pose proof (getUserFromDB_instruments db (FormValue r "id") w) as [HL [HE _]].
  destruct (String.eqb (FormValue r "id") ""); cbn [negb andb snd].
  - split; lia.
  - destruct (getUserFromDB db (FormValue r "id") w) as [[err|user] w1];
      cbn [fst snd hashLatency hashError] in *.
    + rewrite HL, HE. split; lia.
    + rewrite length_app, HL, HE. cbn [List.length].
      destruct (too_short user); split; lia.
Qed.

(** X9: over any sequence of sign-in requests the latency histogram grows by
    one observation for each request whose lookup returned a record, and the
    error counter by one for each of those whose stored hash is shorter than
    59 bytes; in particular the counter never decreases. *)
Theorem serve_signin_counts
  (core : list byte -> Z -> list byte -> bcrypt.encoded)
  (db : sql.DB) (reqs : list Request) (w : World) :
  List.length (hashLatency (serve_signin core db reqs w))
  = (List.length (hashLatency w) + count_true (lookup_succeeds db) reqs)%nat /\
  hashError (serve_signin core db reqs w)
  = hashError w + Z.of_nat (count_true (lookup_too_short db) reqs) /\
  hashError w <= hashError (serve_signin core db reqs w) /\
  (count_true (lookup_too_short db) reqs <= count_true (lookup_succeeds db) reqs)%nat.
Proof.
  revert w. unfold count_true.
  induction reqs as [|r reqs IH]; intro w.
  - cbn. repeat split; lia.
  - cbn [serve_signin filter].
    destruct (IH (snd (signinHandler core db r w))) as [IH1 [IH2 [IH3 IH4]]].
    destruct (signinHandler_instruments core db r w) as [H1 H2].
    rewrite IH1, IH2, H1, H2.
    assert (Himp : lookup_too_short db r = true -> lookup_succeeds db r = true).
    { unfold lookup_too_short, lookup_succeeds.
      destruct (negb _); [|discriminate]. cbn [andb].
      destruct (fst _); [discriminate|reflexivity]. }
    destruct (lookup_too_short db r); destruct (lookup_succeeds db r);
      cbn [List.length]; try (specialize (Himp eq_refl); discriminate Himp);
      repeat split; lia.
Qed.

(** ** Start-up and shutdown *)

(** X10: the cleanup that [setupOpenTelemetry] returns shuts down the tracer
    provider and then the meter provider, each once, the second also when
    the first failed; it never ends the process; it logs one warning per
    failure, and the error it returns is nil exactly when both succeeded and
    otherwise joins the failures in that order. *)
Theorem cleanup_shuts_both_down (env : Env) (l : list Event) :
  exists err l',
    cleanup env l = (Done err, l ++ l') /\
    shutdowns l' = [TracerProvider; MeterProvider] /\
    warnings l' = list_of_option (tp_Shutdown env) ++ list_of_option (mp_Shutdown env) /\
    leaves_of err = list_of_option (tp_Shutdown env) ++ list_of_option (mp_Shutdown env) /\
    (err = None <-> tp_Shutdown env = None /\ mp_Shutdown env = None).
Proof.
  unfold cleanup, pbind, emit, pret.
  destruct (tp_Shutdown env) as [tpErr|]; destruct (mp_Shutdown env) as [mpErr|];
    cbn; rewrite <- ?app_assoc; cbn;
    eexists; eexists; (split; [reflexivity|]); cbn;
    repeat split; intros; try discriminate; try tauto;
    match goal with H : _ /\ _ |- _ => destruct H; discriminate end.
Qed.



(** X13: the client does flush: when its start-up succeeds, [main] calls
    [tp.Shutdown] exactly once, after the span of the downstream call has
    ended and whether or not that call failed; the process then ends
    normally when the shutdown succeeded and with status 1 when it failed.
    When the start-up fails nothing is shut down. *)
Theorem client_main_shuts_down_once (env : client.Env) (l : list Event) :
  exists halt l',
    client.main env l = (halt, l ++ l') /\
    match client.resource_New env, client.otlptracegrpc_New env with
    | None, None =>
        shutdowns l' = [TracerProvider] /\
        (exists before after,
            l' = before ++ EShutdown TracerProvider :: after /\
            In (EEnd "callDownstream") before) /\
        halt = match client.tp_Shutdown env with
               | None => Done tt
               | Some _ => Exit 1
               end
    | _, _ => shutdowns l' = [] /\ halt = Exit 1
    end.
Proof.
  unfold client.main, client.initTracer, client.cleanup,
    client.callDownstreamService, defer, pbind, emit, pret, log_Fatal.
  destruct (client.resource_New env); destruct (client.otlptracegrpc_New env);
    try (cbn; eexists; eexists; (split; [reflexivity|]); cbn; split; reflexivity).
  destruct (client.client_Do env) as [err|body];
    destruct (client.tp_Shutdown env);
    cbn; rewrite <- ?app_assoc; cbn;
    eexists; eexists; (split; [reflexivity|]); cbn;
    (split; [reflexivity|]); (split; [|reflexivity]).
  - exists [EGlobal "SetTracerProvider"; EGlobal "SetTextMapPropagator";
            EGlobal "Tracer my-client"; EStart "callDownstream" None;
            ERequest "POST" "http://localhost:8080/user/auth"
              [("id", "1"); ("password", "foobar")];
            ERecordError "callDownstream" err; EEnd "callDownstream"].
    eexists. split; [reflexivity|]. cbn. tauto.
  - exists [EGlobal "SetTracerProvider"; EGlobal "SetTextMapPropagator";
            EGlobal "Tracer my-client"; EStart "callDownstream" None;
            ERequest "POST" "http://localhost:8080/user/auth"
              [("id", "1"); ("password", "foobar")];
            ERecordError "callDownstream" err; EEnd "callDownstream"].
    eexists. split; [reflexivity|]. cbn. tauto.
  - exists [EGlobal "SetTracerProvider"; EGlobal "SetTextMapPropagator";
            EGlobal "Tracer my-client"; EStart "callDownstream" None;
            ERequest "POST" "http://localhost:8080/user/auth"
              [("id", "1"); ("password", "foobar")];
            EStdout body; EBodyClose; EEnd "callDownstream"].
    eexists. split; [reflexivity|]. cbn. tauto.
  - exists [EGlobal "SetTracerProvider"; EGlobal "SetTextMapPropagator";
            EGlobal "Tracer my-client"; EStart "callDownstream" None;
            ERequest "POST" "http://localhost:8080/user/auth"
              [("id", "1"); ("password", "foobar")];
            EStdout body; EBodyClose; EEnd "callDownstream"].
    eexists. split; [reflexivity|]. cbn. tauto.
Qed.

(** ** The handlers of the tracing examples *)

(** X14: in [rest-api] a lookup that fails is recorded twice on the span of
    the request, once by [getUserFromDB] and once more by [getUserHandler],
    and answered with 500; a missing [id] and a successful lookup record no
    error, and without a span in the context nothing is recorded. *)
Theorem rest_api_failure_recorded_twice
  (scan : string -> error + rest_api.User)
  (ctx : option string) (r : Request) (l : list Event) :
  exists resp l',
    rest_api.getUserHandler scan ctx r l = (Done resp, l ++ l') /\
    errors_on_spans l'
    = (if String.eqb (URL_Query_Get r "id") "" then []
       else
         match ctx, scan (URL_Query_Get r "id") with
         | Some span, inl err => [(span, err); (span, err)]
         | _, _ => []
         end) /\
    (StatusCode resp = StatusInternalServerError <->
     URL_Query_Get r "id" <> "" /\ exists err, scan (URL_Query_Get r "id") = inl err).
Proof.
  unfold rest_api.getUserHandler, rest_api.getUserFromDB,
    rest_api.span_SetAttributes, rest_api.span_RecordError, pbind, emit, pret.
  destruct (String.eqb_spec (URL_Query_Get r "id") "") as [E|E].
  - exists (http_Error "Missing user ID" StatusBadRequest), [].
    rewrite app_nil_r. split; [reflexivity|]. split; [reflexivity|].
    cbn. split; [discriminate|tauto].
  - destruct ctx as [span|];
      destruct (scan (URL_Query_Get r "id")) as [err|user];
      cbn; rewrite <- ?app_assoc; cbn;
      eexists; eexists; (split; [reflexivity|]); cbn;
      (split; [reflexivity|]);
      split; intros; try discriminate; eauto;
      match goal with H : _ /\ (exists _, _) |- _ =>
        destruct H as [_ [e He]]; discriminate He end.
Qed.


(** X16: [handleRequest] of [simple-http] answers every request with 200 and
    the body [Hello, world!]; its spans nest: [processRequest] is started as
    the child of [handleRequest], which is the child of the span of the
    incoming context, and each is ended, the inner one first; the method and
    the URL of the request are the attributes of the outer span. *)
Theorem handleRequest_spans_nest
  (ctx : option string) (r : simple_http.Request) (l : list Event) :
  exists l',
    simple_http.handleRequest ctx r l
    = (Done (mkResponse StatusOK [] (Text "Hello, world!")), l ++ l') /\
    nested ctx l' [] = true /\
    attributes_set l'
    = [("handleRequest", [("http.method", simple_http.Method r);
                          ("http.url", simple_http.URL r)])] /\
    In (EStart "processRequest" (Some "handleRequest")) l' /\
    In (EStart "handleRequest" ctx) l'.
Proof.
  unfold simple_http.handleRequest, simple_http.processRequest,
    simple_http.tracer_Start, defer, pbind, emit, pret.
  cbn. rewrite <- ?app_assoc. cbn.
  eexists. split; [reflexivity|].
  split; [destruct ctx as [c|]; cbn; rewrite ?String.eqb_refl; reflexivity|].
  split; [reflexivity|]. cbn. tauto.
Qed.

(** X17: [callDownstreamService] always returns and always ends its span,
    last of all.  A failure of the transport is recorded on the span and
    nothing is printed; any response, whatever its status, has its body
    printed as it is and closed, and records no error. *)
Theorem callDownstreamService_outcomes
  (env : client.Env) (ctx : option string) (l : list Event) :
  exists l',
    client.callDownstreamService env ctx l
    = (Done tt, l ++ l' ++ [EEnd "callDownstream"]) /\
    nested ctx (l' ++ [EEnd "callDownstream"]) [] = true /\
    printed l' = match client.client_Do env with
                 | inr body => [body]
                 | inl _ => []
                 end /\
    errors_on_spans l' = match client.client_Do env with
                         | inr _ => []
                         | inl err => [("callDownstream", err)]
                         end /\
    (In EBodyClose l' <-> exists body, client.client_Do env = inr body).
Proof.
  unfold client.callDownstreamService, defer, pbind, emit, pret.
  destruct (client.client_Do env) as [err|body];
    cbn; rewrite <- ?app_assoc; cbn.
  - exists [EStart "callDownstream" ctx;
            ERequest "POST" "http://localhost:8080/user/auth"
              [("id", "1"); ("password", "foobar")];
            ERecordError "callDownstream" err].
    split; [reflexivity|].
    split; [destruct ctx; cbn; rewrite ?String.eqb_refl; reflexivity|].
    split; [reflexivity|]. split; [reflexivity|].
    cbn. split.
    + intros [H|[H|[H|[]]]]; discriminate H.
    + intros [body H]. discriminate H.
  - exists [EStart "callDownstream" ctx;
            ERequest "POST" "http://localhost:8080/user/auth"
              [("id", "1"); ("password", "foobar")];
            EStdout body; EBodyClose].
    split; [reflexivity|].
    split; [destruct ctx; cbn; rewrite ?String.eqb_refl; reflexivity|].
    split; [reflexivity|]. split; [reflexivity|].
    cbn. split; [eauto|tauto].
Qed.

(** ** Signing in with a hash that bcrypt wrote *)

Lemma Hash_layout (p : bcrypt.hashed) :
  List.length (bcrypt.salt p) = bcrypt.encodedSaltSize ->
  List.length (bcrypt.hash p) = bcrypt.encodedHashSize ->
  bcrypt.Hash p
  = dollar :: bcrypt.major p ::
    (if Byte.eqb (bcrypt.minor p) x00 then [] else [bcrypt.minor p]) ++
    dollar :: bcrypt.Sprintf_02d (bcrypt.cost p) ++
    dollar :: bcrypt.salt p ++ bcrypt.hash p.
Proof.
  destruct p as [h s c maj mi].
  cbn [bcrypt.salt bcrypt.hash bcrypt.cost bcrypt.major bcrypt.minor].
  unfold bcrypt.encodedSaltSize, bcrypt.encodedHashSize. intros Hs Hh.
  do 22 (destruct s as [|? s]; [discriminate Hs|]); destruct s; [|discriminate Hs].
  do 31 (destruct h as [|? h]; [discriminate Hh|]); destruct h; [|discriminate Hh].
  unfold bcrypt.Hash, bcrypt.Sprintf_02d.
  cbn [bcrypt.salt bcrypt.hash bcrypt.cost bcrypt.major bcrypt.minor].
  generalize (byte_of_Z (48 + c / 10)) (byte_of_Z (48 + c mod 10)). intros d1 d2.
  destruct (Byte.eqb mi x00); reflexivity.
Qed.

Lemma Atoi_Sprintf_02d (c : Z) :
  bcrypt.MinCost <= c <= bcrypt.MaxCost ->
  strconv.Atoi (string_of_bytes (bcrypt.Sprintf_02d c)) = inr c.
Proof.
  unfold bcrypt.MinCost, bcrypt.MaxCost. intro H.
  assert (E : exists n : nat, c = 4 + Z.of_nat n /\ (n <= 27)%nat)
    by (exists (Z.to_nat (c - 4)); lia).
  destruct E as [n [-> Hn]].
  do 28 (destruct n as [|n]; [vm_compute; reflexivity|]). lia.
Qed.

(** Parsing undoes [Hash] on what bcrypt writes. *)
Lemma newFromHash_Hash (p : bcrypt.hashed) :
  encodable p -> bcrypt.newFromHash (bcrypt.Hash p) = Ok p.
Proof.
  intros [Hc [Hs [Hh [Hmaj Hmi]]]].
  rewrite Hash_layout by assumption.
  pose proof (Atoi_Sprintf_02d _ Hc) as HA.
  pose proof (checkCost_settles (bcrypt.cost p)) as HC.
  destruct p as [h s c maj mi].
  cbn [bcrypt.salt bcrypt.hash bcrypt.cost bcrypt.major bcrypt.minor] in *.
  unfold bcrypt.encodedSaltSize, bcrypt.encodedHashSize in *.
  do 22 (destruct s as [|? s]; [discriminate Hs|]); destruct s; [|discriminate Hs].
  do 31 (destruct h as [|? h]; [discriminate Hh|]); destruct h; [|discriminate Hh].
  unfold bcrypt.Sprintf_02d in *.
  revert HA.
  generalize (byte_of_Z (48 + c / 10)) (byte_of_Z (48 + c mod 10)). intros d1 d2 HA.
  assert (Hgt : (byte_val maj >? byte_val majorVersion) = false)
    by (rewrite Z.gtb_ltb; apply Z.ltb_ge; exact Hmaj).
  assert (Hmd : Byte.eqb mi dollar = false).
  { destruct (Byte.eqb mi dollar) eqn:E; [|reflexivity].
    apply Byte.byte_dec_bl in E. contradiction. }
  assert (Hck : bcrypt.checkCost c = Ok tt).
  { destruct (bcrypt.checkCost c) as [[]|e|] eqn:E; [reflexivity| |contradiction].
    unfold bcrypt.checkCost in E.
    destruct (c <? bcrypt.MinCost) eqn:E1; [apply Z.ltb_lt in E1; lia|].
    destruct (c >? bcrypt.MaxCost) eqn:E2;
      [rewrite Z.gtb_ltb in E2; apply Z.ltb_lt in E2; lia|].
    discriminate E. }
  change dollar with x24 in *. change majorVersion with x32 in *.
  assert (Hdd : Byte.eqb x24 x24 = true) by reflexivity.
  destruct (Byte.eqb mi x00) eqn:Hm0;
    [apply Byte.byte_dec_bl in Hm0; subst mi|];
    cbn [app];
    unfold bcrypt.newFromHash, bcrypt.decodeVersion, bcrypt.decodeCost, index,
      slice_from, slice;
    cbn -[Byte.eqb byte_val strconv.Atoi string_of_bytes bcrypt.checkCost];
    repeat (first [rewrite Hdd | rewrite Hgt | rewrite Hmd | rewrite HA | rewrite Hck];
            cbn -[Byte.eqb byte_val strconv.Atoi string_of_bytes bcrypt.checkCost]);
    reflexivity.
Qed.

Lemma bytes_eqb_eq (x y : list byte) : bytes_eqb x y = true <-> x = y.
Proof.
  revert y. induction x as [|a x IH]; intros [|b y]; cbn; split; intro H;
    try reflexivity; try discriminate H.
  - apply andb_prop in H as [H1 H2].
    apply Byte.byte_dec_bl in H1. apply IH in H2. now subst.
  - injection H as -> ->. apply andb_true_intro. split.
    + now apply Byte.byte_dec_lb.
    + now apply IH.
Qed.

(** Two encodable hashes that differ in the hash part only encode alike
    exactly when the hash parts are equal. *)
Lemma Hash_same_iff (p : bcrypt.hashed) (otherHash : list byte) :
  encodable p ->
  List.length otherHash = bcrypt.encodedHashSize ->
  (bcrypt.Hash p
   = bcrypt.Hash (bcrypt.mkHashed otherHash (bcrypt.salt p) (bcrypt.cost p)
                    (bcrypt.major p) (bcrypt.minor p))
   <-> bcrypt.hash p = otherHash).
Proof.
  intros [Hc [Hs [Hh _]]] Ho.
  rewrite !Hash_layout by assumption.
  cbn [bcrypt.salt bcrypt.hash bcrypt.cost bcrypt.major bcrypt.minor].
  split.
  - intro H. injection H as H.
    apply app_inv_head in H. injection H as H.
    apply app_inv_head in H. exact H.
  - now intros ->.
Qed.

(** X18: when the row of the identifier stores, in hex, a hash that bcrypt
    wrote, the sign-in is answered 200 with [Status: OK] if the Blowfish
    core, run on the submitted password with the stored cost and salt,
    returns the stored hash part, and 401 with the error counter unchanged
    if it returns another hash part of 31 bytes. *)
Theorem signin_with_stored_bcrypt_hash
  (core : list byte -> Z -> list byte -> bcrypt.encoded)
  (db : sql.DB) (r : Request) (w : World)
  (key : Z) (row : sql.Row) (p : bcrypt.hashed) (otherHash : list byte) :
  strconv.Atoi (FormValue r "id") = inr key ->
  sql.QueryRow_Scan db key = inr row ->
  sql.col_password row = Some (EncodeToString (bcrypt.Hash p)) ->
  encodable p ->
  core (bytes_of_string (FormValue r "password")) (bcrypt.cost p) (bcrypt.salt p)
  = bcrypt.Hashed otherHash ->
  List.length otherHash = bcrypt.encodedHashSize ->
  (otherHash = bcrypt.hash p ->
   fst (signinHandler core db r w)
   = Responded (mkResponse StatusOK [] (JSON [("Status", JStr "OK")]))) /\
  (otherHash <> bcrypt.hash p ->
   fst (signinHandler core db r w)
   = Responded (http_Error "Not authenticated" StatusUnauthorized) /\
   hashError (snd (signinHandler core db r w)) = hashError w).
Proof.
  intros Hkey Hrow Hpw Henc Hcore Hlen.
  assert (Hfetch : getUserFromDB db (FormValue r "id") w
                   = (inr (mkUser (sql.col_id row) (sql.col_name row)
                                  (sql.col_email row) (Some (bcrypt.Hash p))),
                      mkWorld (hashLatency w) (hashError w) (spans w)
                              (queries w ++ [key]))).
  { rewrite getUserFromDB_run, Hkey, Hrow, Hpw, DecodeString_EncodeToString.
    reflexivity. }
  rewrite signinHandler_run, Hfetch.
  destruct (String.eqb_spec (FormValue r "id") "") as [E|_];
    [rewrite E in Hkey; discriminate Hkey|].
  cbn [fst snd hashError].
  assert (Hlong : too_short (mkUser (sql.col_id row) (sql.col_name row)
                               (sql.col_email row) (Some (bcrypt.Hash p))) = false).
  { unfold too_short. cbn [password bytes_of_slice].
    destruct Henc as [_ [Hs [Hh _]]].
    rewrite Hash_layout by assumption.
    apply Nat.ltb_ge.
    unfold bcrypt.minHashSize, bcrypt.Sprintf_02d, bcrypt.encodedSaltSize,
      bcrypt.encodedHashSize in *.
    destruct (Byte.eqb (bcrypt.minor p) x00);
      repeat (rewrite ?length_app; cbn [List.length app]); lia. }
  rewrite Hlong.
  assert (Hcmp : compare core
                   (mkUser (sql.col_id row) (sql.col_name row) (sql.col_email row)
                      (Some (bcrypt.Hash p))) (FormValue r "password")
                 = if bytes_eqb (bcrypt.Hash p)
                        (bcrypt.Hash (bcrypt.mkHashed otherHash (bcrypt.salt p)
                                        (bcrypt.cost p) (bcrypt.major p) (bcrypt.minor p)))
                   then Ok tt else Err ErrMismatchedHashAndPassword).
  { unfold compare, bcrypt.CompareHashAndPassword. cbn [password bytes_of_slice].
    rewrite newFromHash_Hash by exact Henc. rewrite obind_Ok, Hcore. reflexivity. }
  rewrite Hcmp.
  pose proof (Hash_same_iff p otherHash Henc Hlen) as Hiff.
  destruct (bytes_eqb _ _) eqn:Heq.
  - apply bytes_eqb_eq in Heq. apply Hiff in Heq.
    split; [reflexivity|]. intro Hne. now elim Hne.
  - split; [|intros _; split; reflexivity].
    intro Hsame. symmetry in Hsame. apply Hiff in Hsame.
    apply bytes_eqb_eq in Hsame. rewrite Hsame in Heq. discriminate Heq.
Qed.

Lemma signin_with_stored_bcrypt_hash_witness :
  fst (signinHandler stub_bcrypt db1 (post "1" "secret") w0)
  = Responded (mkResponse StatusOK [] (JSON [("Status", JStr "OK")])).
Proof.
  assert (Henc : encodable secret_hashed).
  { unfold encodable.
    repeat split; try reflexivity; vm_compute; discriminate. }
  apply (proj1 (signin_with_stored_bcrypt_hash stub_bcrypt db1 (post "1" "secret") w0
                  1 (sql.mkRow 1 "ann" "ann@example.org"
                       (Some (EncodeToString (stored_hash "secret"))))
                  secret_hashed (bcrypt.hash secret_hashed)
                  eq_refl eq_refl eq_refl Henc eq_refl eq_refl)).
  reflexivity.
Defined.

(** ** Runs on the fixtures *)

Example Atoi_42 : strconv.Atoi "42" = inr 42.
Proof. reflexivity. Qed.
Example Atoi_neg : strconv.Atoi "-7" = inr (-7).
Proof. reflexivity. Qed.
Example Atoi_abc : strconv.Atoi "abc" = inl (NumError "Atoi" "abc" ErrSyntax).
Proof. reflexivity. Qed.
Example Atoi_big : strconv.Atoi "9223372036854775808" = inl (NumError "Atoi" "9223372036854775808" ErrRange).
Proof. reflexivity. Qed.
Example Atoi_min : strconv.Atoi "-9223372036854775808" = inr (-9223372036854775808).
Proof. reflexivity. Qed.
Example hex_abcd : hex.DecodeString "abCD" = inr [xab; xcd].
Proof. reflexivity. Qed.
Example hex_odd : hex.DecodeString "abc" = inl ErrLength.
Proof. reflexivity. Qed.
Example hex_bad : hex.DecodeString "zz" = inl (InvalidByteError (chr 122)).
Proof. reflexivity. Qed.

Example stored_hash_parses :
  bcrypt.newFromHash (stored_hash "secret")
  = Ok (bcrypt.mkHashed
          (firstn 31 (bytes_of_string "secret" ++ repeat (chr 46) 31))
          (bytes_of_string "abcdefghijklmnopqrstuv") 10 (chr 50) (chr 97)).
Proof. vm_compute. reflexivity. Qed.

Example compare_bad_prefix :
  bcrypt.CompareHashAndPassword stub_bcrypt bad_prefix_hash (bytes_of_string "secret")
  = Err (InvalidHashPrefixError (chr 120)).
Proof. vm_compute. reflexivity. Qed.

Example signin_match :
  signinHandler stub_bcrypt db1 (post "1" "secret") w0
  = (Responded (mkResponse 200 [] (JSON [("Status", JStr "OK")])),
     mkWorld [[("correct", ABool true)]] 0
             [SpanStart "password_check"; SpanEnd "password_check"] [1]).
Proof. vm_compute. reflexivity. Qed.

Example signin_mismatch :
  signinHandler stub_bcrypt db1 (post "1" "wrong") w0
  = (Responded (http_Error "Not authenticated" 401),
     mkWorld [[("correct", ABool false)]] 0
             [SpanStart "password_check"; SpanEnd "password_check"] [1]).
Proof. vm_compute. reflexivity. Qed.

Example signin_absent_hash :
  signinHandler stub_bcrypt db1 (post "2" "secret") w0
  = (Responded (http_Error "Not authenticated" 401),
     mkWorld [[("correct", ABool false)]] 1
             [SpanStart "password_check"; SpanEnd "password_check"] [2]).
Proof. vm_compute. reflexivity. Qed.

Example signin_short_hash :
  signinHandler stub_bcrypt db1 (post "4" "secret") w0
  = (Responded (http_Error "Not authenticated" 401),
     mkWorld [[("correct", ABool false)]] 1
             [SpanStart "password_check"; SpanEnd "password_check"] [4]).
Proof. vm_compute. reflexivity. Qed.

Example signin_bad_prefix :
  signinHandler stub_bcrypt db1 (post "5" "secret") w0
  = (Responded (http_Error "Not authenticated" 401),
     mkWorld [[("correct", ABool false)]] 0
             [SpanStart "password_check"; SpanEnd "password_check"] [5]).
Proof. vm_compute. reflexivity. Qed.

Example signin_undecodable :
  signinHandler stub_bcrypt db1 (post "3" "secret") w0
  = (Responded (http_Error "Failed to get user" 500), mkWorld [] 0 [] [3]).
Proof. vm_compute. reflexivity. Qed.

Example signin_absent_id :
  signinHandler stub_bcrypt db1 (post "9" "secret") w0
  = (Responded (http_Error "Failed to get user" 500),
     mkWorld [] 0 [RecordError ErrNoRows] [9]).
Proof. vm_compute. reflexivity. Qed.

Example signin_unparseable_id :
  signinHandler stub_bcrypt db1 (post "abc" "secret") w0
  = (Responded (http_Error "Failed to get user" 500), w0).
Proof. vm_compute. reflexivity. Qed.

Example signin_missing_id :
  signinHandler stub_bcrypt db1 (mkRequest [("password", "secret")] []) w0
  = (Responded (http_Error "Missing user ID" 400), w0).
Proof. vm_compute. reflexivity. Qed.

Example signin_store_down :
  signinHandler stub_bcrypt db_down (post "1" "secret") w0
  = (Responded (http_Error "Failed to get user" 500),
     mkWorld [] 0 [RecordError (StoreFault "connection refused")] [1]).
Proof. vm_compute. reflexivity. Qed.

Example get_user_1 :
  getUserHandler db1 (get "1") w0
  = (Responded (mkResponse 200 [("Content-Type", "application/json")]
                  (JSON [("id", JNum 1); ("name", JStr "ann");
                         ("email", JStr "ann@example.org")])),
     mkWorld [] 0 [] [1]).
Proof. vm_compute. reflexivity. Qed.
